(** * Image-generation backend: the [/api/generate] handler of [main.py]

    A shallow embedding of [generate_image] and of the library calls it
    relies on ([str.strip], [str.lower], [str.encode], [hashlib.sha256],
    [base64.b64encode], f-string rendering of integers), followed by the
    properties of the handler.

    Conventions.
    - A Python [str] is the list of its Unicode code points ([str]); a Python
      [bytes] is the list of its octets ([bytes]); both carry [Z] elements.
    - The environment ([os.getenv]) and the outside world (the Stability API,
      the Picsum service, the optional database module) are explicit
      arguments of the handler; every call the handler makes is recorded in
      a trace of [Event]s returned next to its outcome. *)

From Stdlib Require Import String Ascii DecimalString.
From Stdlib Require Import ZArith List Bool Lia.
Import ListNotations.

Local Open Scope Z_scope.

(** ** Text: Python [str] and [bytes] *)

Definition str := list Z.
Definition bytes := list Z.

Module Text.

(** A string literal of the source: its ASCII characters as code points. *)
Definition lit (s : string) : str :=
  map (fun a => Z.of_N (N_of_ascii a)) (list_ascii_of_string s).

Fixpoint str_eqb (s t : str) : bool :=
  match s, t with
  | [], [] => true
  | c :: s', d :: t' => (c =? d) && str_eqb s' t'
  | _, _ => false
  end.

(** Truth value of a string: [bool(s)] is [len(s) != 0]. *)
Definition truthy (s : str) : bool :=
  match s with [] => false | _ :: _ => true end.

(** [str.isspace] for one character: the code points CPython treats as
    whitespace (bidirectional type WS, B or S, or category Zs). *)
Definition isspace (c : Z) : bool :=
  ((0x09 <=? c) && (c <=? 0x0D)) || ((0x1C <=? c) && (c <=? 0x20))
  || (c =? 0x85) || (c =? 0xA0) || (c =? 0x1680)
  || ((0x2000 <=? c) && (c <=? 0x200A))
  || (c =? 0x2028) || (c =? 0x2029) || (c =? 0x202F) || (c =? 0x205F)
  || (c =? 0x3000).

Fixpoint lstrip (s : str) : str :=
  match s with
  | [] => []
  | c :: s' => if isspace c then lstrip s' else s
  end.

Definition rstrip (s : str) : str := rev (lstrip (rev s)).

(** [s.strip()] with no argument. *)
Definition strip (s : str) : str := rstrip (lstrip s).

(** The lower-case mappings of single code points, from the Unicode
    character database 14.0 as CPython 3.11 carries it: the code points
    [lo], [lo + step], ..., [hi] are mapped to themselves plus [delta]. *)
Definition lower_runs : list (Z * Z * Z * Z) :=
  [(65, 90, 1, 32); (192, 214, 1, 32); (216, 222, 1, 32);
   (256, 302, 2, 1); (306, 310, 2, 1); (313, 327, 2, 1);
   (330, 374, 2, 1); (376, 376, 1, -121); (377, 381, 2, 1);
   (385, 385, 1, 210); (386, 388, 2, 1); (390, 390, 1, 206);
   (391, 391, 1, 1); (393, 394, 1, 205); (395, 395, 1, 1);
   (398, 398, 1, 79); (399, 399, 1, 202); (400, 400, 1, 203);
   (401, 401, 1, 1); (403, 403, 1, 205); (404, 404, 1, 207);
   (406, 406, 1, 211); (407, 407, 1, 209); (408, 408, 1, 1);
   (412, 412, 1, 211); (413, 413, 1, 213); (415, 415, 1, 214);
   (416, 420, 2, 1); (422, 422, 1, 218); (423, 423, 1, 1);
   (425, 425, 1, 218); (428, 428, 1, 1); (430, 430, 1, 218);
   (431, 431, 1, 1); (433, 434, 1, 217); (435, 437, 2, 1);
   (439, 439, 1, 219); (440, 440, 1, 1); (444, 444, 1, 1);
   (452, 452, 1, 2); (453, 453, 1, 1); (455, 455, 1, 2);
   (456, 456, 1, 1); (458, 458, 1, 2); (459, 475, 2, 1);
   (478, 494, 2, 1); (497, 497, 1, 2); (498, 500, 2, 1);
   (502, 502, 1, -97); (503, 503, 1, -56); (504, 542, 2, 1);
   (544, 544, 1, -130); (546, 562, 2, 1); (570, 570, 1, 10795);
   (571, 571, 1, 1); (573, 573, 1, -163); (574, 574, 1, 10792);
   (577, 577, 1, 1); (579, 579, 1, -195); (580, 580, 1, 69);
   (581, 581, 1, 71); (582, 590, 2, 1); (880, 882, 2, 1);
   (886, 886, 1, 1); (895, 895, 1, 116); (902, 902, 1, 38);
   (904, 906, 1, 37); (908, 908, 1, 64); (910, 911, 1, 63);
   (913, 929, 1, 32); (931, 939, 1, 32); (975, 975, 1, 8);
   (984, 1006, 2, 1); (1012, 1012, 1, -60); (1015, 1015, 1, 1);
   (1017, 1017, 1, -7); (1018, 1018, 1, 1); (1021, 1023, 1, -130);
   (1024, 1039, 1, 80); (1040, 1071, 1, 32); (1120, 1152, 2, 1);
   (1162, 1214, 2, 1); (1216, 1216, 1, 15); (1217, 1229, 2, 1);
   (1232, 1326, 2, 1); (1329, 1366, 1, 48); (4256, 4293, 1, 7264);
   (4295, 4295, 1, 7264); (4301, 4301, 1, 7264); (5024, 5103, 1, 38864);
   (5104, 5109, 1, 8); (7312, 7354, 1, -3008); (7357, 7359, 1, -3008);
   (7680, 7828, 2, 1); (7838, 7838, 1, -7615); (7840, 7934, 2, 1);
   (7944, 7951, 1, -8); (7960, 7965, 1, -8); (7976, 7983, 1, -8);
   (7992, 7999, 1, -8); (8008, 8013, 1, -8); (8025, 8031, 2, -8);
   (8040, 8047, 1, -8); (8072, 8079, 1, -8); (8088, 8095, 1, -8);
   (8104, 8111, 1, -8); (8120, 8121, 1, -8); (8122, 8123, 1, -74);
   (8124, 8124, 1, -9); (8136, 8139, 1, -86); (8140, 8140, 1, -9);
   (8152, 8153, 1, -8); (8154, 8155, 1, -100); (8168, 8169, 1, -8);
   (8170, 8171, 1, -112); (8172, 8172, 1, -7); (8184, 8185, 1, -128);
   (8186, 8187, 1, -126); (8188, 8188, 1, -9); (8486, 8486, 1, -7517);
   (8490, 8490, 1, -8383); (8491, 8491, 1, -8262); (8498, 8498, 1, 28);
   (8544, 8559, 1, 16); (8579, 8579, 1, 1); (9398, 9423, 1, 26);
   (11264, 11311, 1, 48); (11360, 11360, 1, 1); (11362, 11362, 1, -10743);
   (11363, 11363, 1, -3814); (11364, 11364, 1, -10727); (11367, 11371, 2, 1);
   (11373, 11373, 1, -10780); (11374, 11374, 1, -10749); (11375, 11375, 1, -10783);
   (11376, 11376, 1, -10782); (11378, 11378, 1, 1); (11381, 11381, 1, 1);
   (11390, 11391, 1, -10815); (11392, 11490, 2, 1); (11499, 11501, 2, 1);
   (11506, 11506, 1, 1); (42560, 42604, 2, 1); (42624, 42650, 2, 1);
   (42786, 42798, 2, 1); (42802, 42862, 2, 1); (42873, 42875, 2, 1);
   (42877, 42877, 1, -35332); (42878, 42886, 2, 1); (42891, 42891, 1, 1);
   (42893, 42893, 1, -42280); (42896, 42898, 2, 1); (42902, 42920, 2, 1);
   (42922, 42922, 1, -42308); (42923, 42923, 1, -42319); (42924, 42924, 1, -42315);
   (42925, 42925, 1, -42305); (42926, 42926, 1, -42308); (42928, 42928, 1, -42258);
   (42929, 42929, 1, -42282); (42930, 42930, 1, -42261); (42931, 42931, 1, 928);
   (42932, 42946, 2, 1); (42948, 42948, 1, -48); (42949, 42949, 1, -42307);
   (42950, 42950, 1, -35384); (42951, 42953, 2, 1); (42960, 42960, 1, 1);
   (42966, 42968, 2, 1); (42997, 42997, 1, 1); (65313, 65338, 1, 32);
   (66560, 66599, 1, 40); (66736, 66771, 1, 40); (66928, 66938, 1, 39);
   (66940, 66954, 1, 39); (66956, 66962, 1, 39); (66964, 66965, 1, 39);
   (68736, 68786, 1, 64); (71840, 71871, 1, 32); (93760, 93791, 1, 32);
   (125184, 125217, 1, 34)].

(** The code points with the property Case_Ignorable, as ranges. *)
Definition case_ignorable_ranges : list (Z * Z) :=
  [(39, 39); (46, 46); (58, 58); (94, 94); (96, 96);
   (168, 168); (173, 173); (175, 175); (180, 180); (183, 184);
   (688, 879); (884, 885); (890, 890); (900, 901); (903, 903);
   (1155, 1161); (1369, 1369); (1375, 1375); (1425, 1469); (1471, 1471);
   (1473, 1474); (1476, 1477); (1479, 1479); (1524, 1524); (1536, 1541);
   (1552, 1562); (1564, 1564); (1600, 1600); (1611, 1631); (1648, 1648);
   (1750, 1757); (1759, 1768); (1770, 1773); (1807, 1807); (1809, 1809);
   (1840, 1866); (1958, 1968); (2027, 2037); (2042, 2042); (2045, 2045);
   (2070, 2093); (2137, 2139); (2184, 2184); (2192, 2193); (2200, 2207);
   (2249, 2306); (2362, 2362); (2364, 2364); (2369, 2376); (2381, 2381);
   (2385, 2391); (2402, 2403); (2417, 2417); (2433, 2433); (2492, 2492);
   (2497, 2500); (2509, 2509); (2530, 2531); (2558, 2558); (2561, 2562);
   (2620, 2620); (2625, 2626); (2631, 2632); (2635, 2637); (2641, 2641);
   (2672, 2673); (2677, 2677); (2689, 2690); (2748, 2748); (2753, 2757);
   (2759, 2760); (2765, 2765); (2786, 2787); (2810, 2815); (2817, 2817);
   (2876, 2876); (2879, 2879); (2881, 2884); (2893, 2893); (2901, 2902);
   (2914, 2915); (2946, 2946); (3008, 3008); (3021, 3021); (3072, 3072);
   (3076, 3076); (3132, 3132); (3134, 3136); (3142, 3144); (3146, 3149);
   (3157, 3158); (3170, 3171); (3201, 3201); (3260, 3260); (3263, 3263);
   (3270, 3270); (3276, 3277); (3298, 3299); (3328, 3329); (3387, 3388);
   (3393, 3396); (3405, 3405); (3426, 3427); (3457, 3457); (3530, 3530);
   (3538, 3540); (3542, 3542); (3633, 3633); (3636, 3642); (3654, 3662);
   (3761, 3761); (3764, 3772); (3782, 3782); (3784, 3789); (3864, 3865);
   (3893, 3893); (3895, 3895); (3897, 3897); (3953, 3966); (3968, 3972);
   (3974, 3975); (3981, 3991); (3993, 4028); (4038, 4038); (4141, 4144);
   (4146, 4151); (4153, 4154); (4157, 4158); (4184, 4185); (4190, 4192);
   (4209, 4212); (4226, 4226); (4229, 4230); (4237, 4237); (4253, 4253);
   (4348, 4348); (4957, 4959); (5906, 5908); (5938, 5939); (5970, 5971);
   (6002, 6003); (6068, 6069); (6071, 6077); (6086, 6086); (6089, 6099);
   (6103, 6103); (6109, 6109); (6155, 6159); (6211, 6211); (6277, 6278);
   (6313, 6313); (6432, 6434); (6439, 6440); (6450, 6450); (6457, 6459);
   (6679, 6680); (6683, 6683); (6742, 6742); (6744, 6750); (6752, 6752);
   (6754, 6754); (6757, 6764); (6771, 6780); (6783, 6783); (6823, 6823);
   (6832, 6862); (6912, 6915); (6964, 6964); (6966, 6970); (6972, 6972);
   (6978, 6978); (7019, 7027); (7040, 7041); (7074, 7077); (7080, 7081);
   (7083, 7085); (7142, 7142); (7144, 7145); (7149, 7149); (7151, 7153);
   (7212, 7219); (7222, 7223); (7288, 7293); (7376, 7378); (7380, 7392);
   (7394, 7400); (7405, 7405); (7412, 7412); (7416, 7417); (7468, 7530);
   (7544, 7544); (7579, 7679); (8125, 8125); (8127, 8129); (8141, 8143);
   (8157, 8159); (8173, 8175); (8189, 8190); (8203, 8207); (8216, 8217);
   (8228, 8228); (8231, 8231); (8234, 8238); (8288, 8292); (8294, 8303);
   (8305, 8305); (8319, 8319); (8336, 8348); (8400, 8432); (11388, 11389);
   (11503, 11505); (11631, 11631); (11647, 11647); (11744, 11775); (11823, 11823);
   (12293, 12293); (12330, 12333); (12337, 12341); (12347, 12347); (12441, 12446);
   (12540, 12542); (40981, 40981); (42232, 42237); (42508, 42508); (42607, 42610);
   (42612, 42621); (42623, 42623); (42652, 42655); (42736, 42737); (42752, 42785);
   (42864, 42864); (42888, 42890); (42994, 42996); (43000, 43001); (43010, 43010);
   (43014, 43014); (43019, 43019); (43045, 43046); (43052, 43052); (43204, 43205);
   (43232, 43249); (43263, 43263); (43302, 43309); (43335, 43345); (43392, 43394);
   (43443, 43443); (43446, 43449); (43452, 43453); (43471, 43471); (43493, 43494);
   (43561, 43566); (43569, 43570); (43573, 43574); (43587, 43587); (43596, 43596);
   (43632, 43632); (43644, 43644); (43696, 43696); (43698, 43700); (43703, 43704);
   (43710, 43711); (43713, 43713); (43741, 43741); (43756, 43757); (43763, 43764);
   (43766, 43766); (43867, 43871); (43881, 43883); (44005, 44005); (44008, 44008);
   (44013, 44013); (64286, 64286); (64434, 64450); (65024, 65039); (65043, 65043);
   (65056, 65071); (65106, 65106); (65109, 65109); (65279, 65279); (65287, 65287);
   (65294, 65294); (65306, 65306); (65342, 65342); (65344, 65344); (65392, 65392);
   (65438, 65439); (65507, 65507); (65529, 65531); (66045, 66045); (66272, 66272);
   (66422, 66426); (67456, 67461); (67463, 67504); (67506, 67514); (68097, 68099);
   (68101, 68102); (68108, 68111); (68152, 68154); (68159, 68159); (68325, 68326);
   (68900, 68903); (69291, 69292); (69446, 69456); (69506, 69509); (69633, 69633);
   (69688, 69702); (69744, 69744); (69747, 69748); (69759, 69761); (69811, 69814);
   (69817, 69818); (69821, 69821); (69826, 69826); (69837, 69837); (69888, 69890);
   (69927, 69931); (69933, 69940); (70003, 70003); (70016, 70017); (70070, 70078);
   (70089, 70092); (70095, 70095); (70191, 70193); (70196, 70196); (70198, 70199);
   (70206, 70206); (70367, 70367); (70371, 70378); (70400, 70401); (70459, 70460);
   (70464, 70464); (70502, 70508); (70512, 70516); (70712, 70719); (70722, 70724);
   (70726, 70726); (70750, 70750); (70835, 70840); (70842, 70842); (70847, 70848);
   (70850, 70851); (71090, 71093); (71100, 71101); (71103, 71104); (71132, 71133);
   (71219, 71226); (71229, 71229); (71231, 71232); (71339, 71339); (71341, 71341);
   (71344, 71349); (71351, 71351); (71453, 71455); (71458, 71461); (71463, 71467);
   (71727, 71735); (71737, 71738); (71995, 71996); (71998, 71998); (72003, 72003);
   (72148, 72151); (72154, 72155); (72160, 72160); (72193, 72202); (72243, 72248);
   (72251, 72254); (72263, 72263); (72273, 72278); (72281, 72283); (72330, 72342);
   (72344, 72345); (72752, 72758); (72760, 72765); (72767, 72767); (72850, 72871);
   (72874, 72880); (72882, 72883); (72885, 72886); (73009, 73014); (73018, 73018);
   (73020, 73021); (73023, 73029); (73031, 73031); (73104, 73105); (73109, 73109);
   (73111, 73111); (73459, 73460); (78896, 78904); (92912, 92916); (92976, 92982);
   (92992, 92995); (94031, 94031); (94095, 94111); (94176, 94177); (94179, 94180);
   (110576, 110579); (110581, 110587); (110589, 110590); (113821, 113822); (113824, 113827);
   (118528, 118573); (118576, 118598); (119143, 119145); (119155, 119170); (119173, 119179);
   (119210, 119213); (119362, 119364); (121344, 121398); (121403, 121452); (121461, 121461);
   (121476, 121476); (121499, 121503); (121505, 121519); (122880, 122886); (122888, 122904);
   (122907, 122913); (122915, 122916); (122918, 122922); (123184, 123197); (123566, 123566);
   (123628, 123631); (125136, 125142); (125252, 125259); (127995, 127999); (917505, 917505);
   (917536, 917631); (917760, 917999)].

(** The code points with the property Cased among those that are not
    case-ignorable (the only ones the property is ever asked of), as
    ranges. *)
Definition cased_ranges : list (Z * Z) :=
  [(65, 90); (97, 122); (170, 170); (181, 181); (186, 186);
   (192, 214); (216, 246); (248, 442); (444, 447); (452, 659);
   (661, 687); (880, 883); (886, 887); (891, 893); (895, 895);
   (902, 902); (904, 906); (908, 908); (910, 929); (931, 1013);
   (1015, 1153); (1162, 1327); (1329, 1366); (1376, 1416); (4256, 4293);
   (4295, 4295); (4301, 4301); (4304, 4346); (4349, 4351); (5024, 5109);
   (5112, 5117); (7296, 7304); (7312, 7354); (7357, 7359); (7424, 7467);
   (7531, 7543); (7545, 7578); (7680, 7957); (7960, 7965); (7968, 8005);
   (8008, 8013); (8016, 8023); (8025, 8025); (8027, 8027); (8029, 8029);
   (8031, 8061); (8064, 8116); (8118, 8124); (8126, 8126); (8130, 8132);
   (8134, 8140); (8144, 8147); (8150, 8155); (8160, 8172); (8178, 8180);
   (8182, 8188); (8450, 8450); (8455, 8455); (8458, 8467); (8469, 8469);
   (8473, 8477); (8484, 8484); (8486, 8486); (8488, 8488); (8490, 8493);
   (8495, 8500); (8505, 8505); (8508, 8511); (8517, 8521); (8526, 8526);
   (8544, 8575); (8579, 8580); (9398, 9449); (11264, 11387); (11390, 11492);
   (11499, 11502); (11506, 11507); (11520, 11557); (11559, 11559); (11565, 11565);
   (42560, 42605); (42624, 42651); (42786, 42863); (42865, 42887); (42891, 42894);
   (42896, 42954); (42960, 42961); (42963, 42963); (42965, 42969); (42997, 42998);
   (43002, 43002); (43824, 43866); (43872, 43880); (43888, 43967); (64256, 64262);
   (64275, 64279); (65313, 65338); (65345, 65370); (66560, 66639); (66736, 66771);
   (66776, 66811); (66928, 66938); (66940, 66954); (66956, 66962); (66964, 66965);
   (66967, 66977); (66979, 66993); (66995, 67001); (67003, 67004); (68736, 68786);
   (68800, 68850); (71840, 71903); (93760, 93823); (119808, 119892); (119894, 119964);
   (119966, 119967); (119970, 119970); (119973, 119974); (119977, 119980); (119982, 119993);
   (119995, 119995); (119997, 120003); (120005, 120069); (120071, 120074); (120077, 120084);
   (120086, 120092); (120094, 120121); (120123, 120126); (120128, 120132); (120134, 120134);
   (120138, 120144); (120146, 120485); (120488, 120512); (120514, 120538); (120540, 120570);
   (120572, 120596); (120598, 120628); (120630, 120654); (120656, 120686); (120688, 120712);
   (120714, 120744); (120746, 120770); (120772, 120779); (122624, 122633); (122635, 122654);
   (125184, 125251); (127280, 127305); (127312, 127337); (127344, 127369)].

Fixpoint lookup_run (runs : list (Z * Z * Z * Z)) (c : Z) : Z :=
  match runs with
  | [] => c
  | (lo, hi, step, delta) :: rest =>
      if (lo <=? c) && (c <=? hi) && ((c - lo) mod step =? 0) then c + delta
      else lookup_run rest c
  end.

Fixpoint in_ranges (ranges : list (Z * Z)) (c : Z) : bool :=
  match ranges with
  | [] => false
  | (lo, hi) :: rest => ((lo <=? c) && (c <=? hi)) || in_ranges rest c
  end.

Definition lower_char (c : Z) : Z := lookup_run lower_runs c.

(** The full lower-case mapping of one code point: the capital I with dot
    above is the only one that becomes two. *)
Definition lower_full (c : Z) : str :=
  if c =? 0x130 then [0x69; 0x307] else [lower_char c].

Definition case_ignorable (c : Z) : bool := in_ranges case_ignorable_ranges c.
Definition cased (c : Z) : bool := in_ranges cased_ranges c.

Fixpoint skip_ignorable (s : str) : str :=
  match s with
  | [] => []
  | c :: s' => if case_ignorable c then skip_ignorable s' else s
  end.

(** The capital sigma is a final one when a cased letter comes before it
    and none after it, case-ignorable characters apart; [before] is what
    precedes it, nearest first. *)
Definition final_sigma (before after : str) : bool :=
  match skip_ignorable before with
  | c :: _ => cased c
  | [] => false
  end
  && match skip_ignorable after with
     | c :: _ => negb (cased c)
     | [] => true
     end.

Fixpoint lower_from (before s : str) : str :=
  match s with
  | [] => []
  | c :: rest =>
      (if c =? 0x3A3
       then [if final_sigma before rest then 0x3C2 else 0x3C3]
       else lower_full c)
        ++ lower_from (c :: before) rest
  end.

(** [s.lower()]. *)
Definition lower (s : str) : str := lower_from [] s.

(** [s[:n]]. *)
Definition take (n : nat) (s : str) : str := firstn n s.

(** [str(n)] and [f"{n}"] for an [int]. *)
Definition str_of_int (n : Z) : str := lit (NilZero.string_of_int (Z.to_int n)).

(** [f"{x}"] for an [Optional[int]]. *)
Definition fmt_opt_int (x : option Z) : str :=
  match x with
  | Some n => str_of_int n
  | None => lit "None"
  end.

(** One code point under [s.encode("utf-8")]; surrogates (and numbers
    that are no code point) raise [UnicodeEncodeError]: [None]. *)
Definition utf8_char (c : Z) : option bytes :=
  if c <? 0 then None
  else if c <? 0x80 then Some [c]
  else if c <? 0x800 then
    Some [Z.lor 0xC0 (Z.shiftr c 6); Z.lor 0x80 (Z.land c 0x3F)]
  else if c <? 0x10000 then
    if (0xD800 <=? c) && (c <=? 0xDFFF) then None
    else Some [Z.lor 0xE0 (Z.shiftr c 12);
               Z.lor 0x80 (Z.land (Z.shiftr c 6) 0x3F);
               Z.lor 0x80 (Z.land c 0x3F)]
  else if c <? 0x110000 then
    Some [Z.lor 0xF0 (Z.shiftr c 18);
          Z.lor 0x80 (Z.land (Z.shiftr c 12) 0x3F);
          Z.lor 0x80 (Z.land (Z.shiftr c 6) 0x3F);
          Z.lor 0x80 (Z.land c 0x3F)]
  else None.

Fixpoint encode_utf8 (s : str) : option bytes :=
  match s with
  | [] => Some []
  | c :: s' =>
      match utf8_char c, encode_utf8 s' with
      | Some b, Some bs => Some (b ++ bs)
      | _, _ => None
      end
  end.

(** [bs.decode("utf-8")] on ASCII octets, the only use in the handler
    (the output of [b64encode]). *)
Definition decode_ascii (bs : bytes) : str := bs.

End Text.

(** ** [hashlib.sha256]: SHA-256 of FIPS 180-4 on 32-bit words *)

Module Sha256.

Definition w32 (x : Z) : Z := x mod 2 ^ 32.
Definition add32 (x y : Z) : Z := w32 (x + y).
Definition rotr (n x : Z) : Z :=
  w32 (Z.lor (Z.shiftr x n) (Z.shiftl x (32 - n))).
Definition not32 (x : Z) : Z := Z.lxor x 0xFFFFFFFF.

Definition Ch (x y z : Z) : Z := Z.lxor (Z.land x y) (Z.land (not32 x) z).
Definition Maj (x y z : Z) : Z :=
  Z.lxor (Z.lxor (Z.land x y) (Z.land x z)) (Z.land y z).
Definition Sigma0 (x : Z) : Z := Z.lxor (Z.lxor (rotr 2 x) (rotr 13 x)) (rotr 22 x).
Definition Sigma1 (x : Z) : Z := Z.lxor (Z.lxor (rotr 6 x) (rotr 11 x)) (rotr 25 x).
Definition sigma0 (x : Z) : Z := Z.lxor (Z.lxor (rotr 7 x) (rotr 18 x)) (Z.shiftr x 3).
Definition sigma1 (x : Z) : Z := Z.lxor (Z.lxor (rotr 17 x) (rotr 19 x)) (Z.shiftr x 10).

(** The constants of the standard are defined by arithmetic: the first 32
    bits of the fractional parts of the square roots (initial hash value)
    and of the cube roots (round constants) of the first primes. *)
Definition is_prime (n : Z) : bool :=
  forallb (fun d => negb (n mod Z.of_nat d =? 0)) (seq 2 (Z.to_nat n - 2)).

(** The primes up to 311: the first sixty-four. *)
Definition primes : list Z := filter is_prime (map Z.of_nat (seq 2 310)).

(** Largest [r] below [2 ^ bits] with [r ^ 3 <= n], one bit at a time. *)
Fixpoint cube_root (bits : nat) (n r : Z) : Z :=
  match bits with
  | O => r
  | S b =>
      let r' := r + 2 ^ Z.of_nat b in
      cube_root b n (if r' * r' * r' <=? n then r' else r)
  end.

Definition frac_sqrt (p : Z) : Z := w32 (Z.sqrt (p * 2 ^ 64)).
Definition frac_cbrt (p : Z) : Z := w32 (cube_root 40 (p * 2 ^ 96) 0).

Definition K : list Z := map frac_cbrt primes.

(** The eight working variables a..h, and the hash value. *)
Record state := State { sa : Z; sb : Z; sc : Z; sd : Z;
                        se : Z; sf : Z; sg : Z; sh : Z }.

Definition H0 : state :=
  State (frac_sqrt 2) (frac_sqrt 3) (frac_sqrt 5) (frac_sqrt 7)
        (frac_sqrt 11) (frac_sqrt 13) (frac_sqrt 17) (frac_sqrt 19).

Definition round (k w : Z) (s : state) : state :=
  let t1 := add32 (add32 (add32 (add32 (sh s) (Sigma1 (se s)))
                                (Ch (se s) (sf s) (sg s))) k) w in
  let t2 := add32 (Sigma0 (sa s)) (Maj (sa s) (sb s) (sc s)) in
  State (add32 t1 t2) (sa s) (sb s) (sc s) (add32 (sd s) t1) (se s) (sf s) (sg s).

(** The message schedule as a sliding window of sixteen words:
    the head is W[t], the word appended is W[t+16]. *)
Definition slide (w : list Z) : list Z :=
  let x i := nth i w 0 in
  tl w ++ [add32 (add32 (add32 (sigma1 (x 14%nat)) (x 9%nat)) (sigma0 (x 1%nat))) (x 0%nat)].

Fixpoint rounds (ks : list Z) (w : list Z) (s : state) : state :=
  match ks with
  | [] => s
  | k :: ks' => rounds ks' (slide w) (round k (hd 0 w) s)
  end.

Definition compress (h : state) (w : list Z) : state :=
  let s := rounds K w h in
  State (add32 (sa h) (sa s)) (add32 (sb h) (sb s))
        (add32 (sc h) (sc s)) (add32 (sd h) (sd s))
        (add32 (se h) (se s)) (add32 (sf h) (sf s))
        (add32 (sg h) (sg s)) (add32 (sh h) (sh s)).

(** Big-endian octets of a word, and back. *)
Definition word_bytes (x : Z) : bytes :=
  [Z.shiftr x 24 mod 256; Z.shiftr x 16 mod 256; Z.shiftr x 8 mod 256; x mod 256].

Fixpoint words (bs : bytes) : list Z :=
  match bs with
  | b0 :: b1 :: b2 :: b3 :: bs' =>
      (b0 * 2 ^ 24 + b1 * 2 ^ 16 + b2 * 2 ^ 8 + b3) :: words bs'
  | _ => []
  end.

Definition pad (msg : bytes) : bytes :=
  let len := Z.of_nat (length msg) in
  let bits := 8 * len in
  msg ++ [0x80] ++ repeat 0 (Z.to_nat ((55 - len) mod 64))
      ++ word_bytes (Z.shiftr bits 32) ++ word_bytes bits.

(** Absorb [n] blocks of 64 octets. *)
Fixpoint absorb (n : nat) (bs : bytes) (h : state) : state :=
  match n with
  | O => h
  | S n' => absorb n' (skipn 64 bs) (compress h (words (firstn 64 bs)))
  end.

(** [hashlib.sha256(msg).digest()]. *)
Definition digest (msg : bytes) : bytes :=
  let p := pad msg in
  let h := absorb (length p / 64) p H0 in
  word_bytes (sa h) ++ word_bytes (sb h) ++ word_bytes (sc h) ++ word_bytes (sd h)
    ++ word_bytes (se h) ++ word_bytes (sf h) ++ word_bytes (sg h) ++ word_bytes (sh h).

Definition hex_digit (d : Z) : Z :=
  if d <? 10 then 48 + d else 87 + d.

Fixpoint hex (bs : bytes) : str :=
  match bs with
  | [] => []
  | b :: bs' => hex_digit (b / 16) :: hex_digit (b mod 16) :: hex bs'
  end.

(** [hashlib.sha256(msg).hexdigest()]. *)
Definition hexdigest (msg : bytes) : str := hex (digest msg).

End Sha256.

(** [int(s, 16)] on a string of hexadecimal digits; any other character, or
    no digit at all, raises [ValueError]: [None]. *)
Definition hex_value (c : Z) : option Z :=
  if (48 <=? c) && (c <=? 57) then Some (c - 48)
  else if (97 <=? c) && (c <=? 102) then Some (c - 87)
  else if (65 <=? c) && (c <=? 70) then Some (c - 55)
  else None.

Fixpoint int16_from (acc : Z) (s : str) : option Z :=
  match s with
  | [] => Some acc
  | c :: s' =>
      match hex_value c with
      | Some d => int16_from (16 * acc + d) s'
      | None => None
      end
  end.

Definition int16 (s : str) : option Z :=
  match s with
  | [] => None
  | _ => int16_from 0 s
  end.

(** The integer a sequence of octets denotes, most significant first. *)
Fixpoint be_int_from (acc : Z) (bs : bytes) : Z :=
  match bs with
  | [] => acc
  | b :: bs' => be_int_from (256 * acc + b) bs'
  end.

Definition be_int (bs : bytes) : Z := be_int_from 0 bs.

(** ** [base64.b64encode] *)

Module Base64.

(** The character of a 6-bit value in the standard alphabet. *)
Definition alphabet (v : Z) : Z :=
  if v <? 26 then 65 + v
  else if v <? 52 then 97 + (v - 26)
  else if v <? 62 then 48 + (v - 52)
  else if v =? 62 then 43
  else 47.

Definition pad_char : Z := 61.

Fixpoint b64encode (bs : bytes) : bytes :=
  match bs with
  | [] => []
  | [a] =>
      [alphabet (Z.shiftr a 2); alphabet (Z.shiftl (Z.land a 3) 4);
       pad_char; pad_char]
  | [a; b] =>
      [alphabet (Z.shiftr a 2);
       alphabet (Z.lor (Z.shiftl (Z.land a 3) 4) (Z.shiftr b 4));
       alphabet (Z.shiftl (Z.land b 15) 2); pad_char]
  | a :: b :: c :: rest =>
      alphabet (Z.shiftr a 2)
      :: alphabet (Z.lor (Z.shiftl (Z.land a 3) 4) (Z.shiftr b 4))
      :: alphabet (Z.lor (Z.shiftl (Z.land b 15) 2) (Z.shiftr c 6))
      :: alphabet (Z.land c 63)
      :: b64encode rest
  end.

End Base64.

(** ** Python dictionaries of strings, in insertion order *)

Definition dict := list (str * str).

Fixpoint dict_get (k : str) (d : dict) : option str :=
  match d with
  | [] => None
  | (k', v) :: d' => if Text.str_eqb k k' then Some v else dict_get k d'
  end.

(** [d[k] = v]: the value is replaced in place when the key is there, the
    item is appended otherwise. *)
Fixpoint dict_set (k v : str) (d : dict) : dict :=
  match d with
  | [] => [(k, v)]
  | (k', v') :: d' =>
      if Text.str_eqb k k' then (k', v) :: d' else (k', v') :: dict_set k v d'
  end.

(** ** Data model *)

Module GenerateRequest.
(** The request body after pydantic has filled in the defaults: a field
    left out is [None] for [provider] and [512] for [width] and [height];
    an explicit [null] is [None]. *)
Record t := mk {
  prompt : str;
  provider : option str;
  width : option Z;
  height : option Z
}.
End GenerateRequest.

Module GenerateResponse.
Record t := mk {
  image_b64 : str;
  provider : str;
  model : option str;
  mode : str;
  note : option str
}.
End GenerateResponse.

(** The record handed to the storage collaborator ([schemas.ImageGeneration]);
    only its construction site is in the source. *)
Module ImageGeneration.
Record t := mk {
  prompt : str;
  provider : str;
  model : option str;
  image_b64 : option str;
  width : option Z;
  height : option Z
}.
End ImageGeneration.

(** ** The environment and the outside world *)

(** [os.environ]. *)
Definition environ := str -> option str.

Definition getenv (env : environ) (name : str) : option str := env name.

(** A [requests.Response], as far as the handler reads it. *)
Record Response := mkResponse {
  status_code : Z;
  content : bytes;
  text : str
}.

(** What [requests.post] and [requests.get] do: hand back a response, or
    raise (connection error, timeout, ...). *)
Inductive HttpResult :=
| Responded (r : Response)
| RequestException.

Record World := mkWorld {
  (** The first [try] block as a whole: import [database] and [schemas],
      build the record, call [create_document]. [None] when any of this
      raises. *)
  create_document : str -> ImageGeneration.t -> option Z;
  (** [from database import db] succeeds and [db is not None]. *)
  db : bool;
  (** [requests.post(url, headers=, files=None, data=, timeout=)]. *)
  requests_post : str -> dict -> dict -> Z -> HttpResult;
  (** [requests.get(url, timeout=)]. *)
  requests_get : str -> Z -> HttpResult
}.

(** The calls the handler makes, in order. *)
Inductive Event :=
| CreateDocument (collection : str) (doc : ImageGeneration.t)
| UpdateOne (collection : str)
| Post (url : str) (headers data : dict) (timeout : Z)
| Get (url : str) (timeout : Z).


Definition is_network (e : Event) : bool :=
  match e with
  | Post _ _ _ _ | Get _ _ => true
  | CreateDocument _ _ | UpdateOne _ => false
  end.

(** Exceptions that no handler of [generate_image] catches. *)
Inductive Uncaught := UnicodeEncodeError | ValueError.

(** How a call of the endpoint ends. *)
Inductive Outcome :=
| Return (r : GenerateResponse.t)
| HTTPException (status : Z) (detail : str)
| Raise (e : Uncaught)
| RequestValidationError.

(** The HTTP status the caller sees. *)
Definition http_status (o : Outcome) : Z :=
  match o with
  | Return _ => 200
  | HTTPException s _ => s
  | Raise _ => 500
  | RequestValidationError => 422
  end.

(** ** The handler: [generate_image], lines 91-166 of [main.py] *)

Import Text.

Definition truthy_opt (o : option str) : bool :=
  match o with
  | Some s => truthy s
  | None => false
  end.

(** [x or d] for an [Optional[str]] on the left. *)
Definition or_else (x : option str) (d : str) : str :=
  match x with
  | Some s => if truthy s then s else d
  | None => d
  end.

(** [f"{x}"] for an [Optional[str]]. *)
Definition fmt_opt_str (x : option str) : str :=
  match x with
  | Some s => s
  | None => lit "None"
  end.

Definition is_some {A} (x : option A) : bool :=
  match x with Some _ => true | None => false end.

(** Line 98. *)
Definition resolve_provider (hint stability_key : option str) : str :=
  lower (or_else hint
           (if truthy_opt stability_key then lit "stability" else lit "demo")).

(** Lines 111-125: the request sent to the Stability API. *)
Definition stability_url : str :=
  lit "https://api.stability.ai/v2beta/stable-image/generate/core".

Definition stability_headers (stability_key : option str) : dict :=
  [(lit "Authorization", lit "Bearer " ++ fmt_opt_str stability_key)].

Definition opt_Z_eqb (a b : option Z) : bool :=
  match a, b with
  | Some x, Some y => x =? y
  | None, None => true
  | _, _ => false
  end.

Definition stability_data (prompt : str) (req : GenerateRequest.t) : dict :=
  let data :=
    [(lit "prompt", prompt);
     (lit "output_format", lit "png");
     (lit "aspect_ratio",
      fmt_opt_int (GenerateRequest.width req) ++ lit ":"
        ++ fmt_opt_int (GenerateRequest.height req))] in
  if opt_Z_eqb (GenerateRequest.width req) (GenerateRequest.height req)
  then dict_set (lit "aspect_ratio") (lit "1:1") data
  else dict_set (lit "aspect_ratio") (lit "1:1") data.

(** Line 155. *)
Definition demo_seed (prompt : str) : Uncaught + Z :=
  match encode_utf8 prompt with
  | None => inl UnicodeEncodeError
  | Some bs =>
      match int16 (Sha256.hexdigest bs) with
      | None => inl ValueError
      | Some n => inr (n mod 10 ^ 8)
      end
  end.

(** Line 156. *)
Definition demo_url (seed : Z) (width height : option Z) : str :=
  lit "https://picsum.photos/seed/" ++ str_of_int seed ++ lit "/"
    ++ fmt_opt_int width ++ lit "/" ++ fmt_opt_int height.

(** [r.raise_for_status()] raises on the 4xx and 5xx statuses. *)
Definition raises_for_status (r : Response) : bool :=
  (400 <=? status_code r) && (status_code r <? 600).

(** Line 163: the embedded 1x1 PNG. *)
Definition fallback_png : bytes :=
  [137;80;78;71;13;10;26;10;0;0;0;13;73;72;68;82;0;0;0;1;0;0;0;1;8;6;0;0;0;
   31;21;196;137;0;0;0;12;73;68;65;84;120;156;99;248;15;4;0;9;251;3;253;134;
   87;198;122;0;0;0;0;73;69;78;68;174;66;96;130].

Definition b64 (bs : bytes) : str := decode_ascii (Base64.b64encode bs).

(** Line 165. *)
Definition demo_note : str :=
  lit "Running in demo mode without an AI key. Set STABILITY_API_KEY to enable real image generation.".

(** Lines 154-166: the demo path, entered with the provider label to report. *)
Definition demo_mode (w : World) (req : GenerateRequest.t)
    (prompt provider : str) : Outcome * list Event :=
  match demo_seed prompt with
  | inl e => (Raise e, [])
  | inr seed =>
      let url := demo_url seed (GenerateRequest.width req)
                   (GenerateRequest.height req) in
      let img_b64 :=
        match requests_get w url 30 with
        | Responded r =>
            if raises_for_status r then b64 fallback_png else b64 (content r)
        | RequestException => b64 fallback_png
        end in
      (Return (GenerateResponse.mk img_b64 provider None (lit "demo")
                 (Some demo_note)),
       [Get url 30])
  end.

(** How the [try] block of lines 110-152 ends. *)
Inductive Live :=
| LiveReturn (r : GenerateResponse.t)
| LiveHTTPException (status : Z) (detail : str)
| LiveFallback.

(** Lines 110-152: the live path. *)
Definition stability (w : World) (req : GenerateRequest.t) (prompt : str)
    (stability_key : option str) (_id : option Z) : Live * list Event :=
  let url := stability_url in
  let headers := stability_headers stability_key in
  let data := stability_data prompt req in
  let post := Post url headers data 120 in
  match requests_post w url headers data 120 with
  | RequestException => (LiveFallback, [post])
  | Responded resp =>
      if negb (status_code resp =? 200) then
        (LiveHTTPException 500
           (lit "Stability API error: " ++ str_of_int (status_code resp)
              ++ lit " " ++ take 200 (text resp)),
         [post])
      else
        let image_b64 := b64 (content resp) in
        let update :=
          if db w && is_some _id then [UpdateOne (lit "imagegeneration")]
          else [] in
        (LiveReturn (GenerateResponse.mk image_b64 (lit "stability")
                       (Some (lit "stable-image-core")) (lit "live") None),
         post :: update)
  end.

Definition generate_image (env : environ) (w : World)
    (req : GenerateRequest.t) : Outcome * list Event :=
  let prompt := strip (GenerateRequest.prompt req) in
  if negb (truthy prompt) then
    (HTTPException 400 (lit "Prompt is required"), [])
  else
    let stability_key := getenv env (lit "STABILITY_API_KEY") in
    let provider := resolve_provider (GenerateRequest.provider req) stability_key in
    let base_doc :=
      ImageGeneration.mk prompt provider None None
        (GenerateRequest.width req) (GenerateRequest.height req) in
    let _id := create_document w (lit "imagegeneration") base_doc in
    let saved := CreateDocument (lit "imagegeneration") base_doc in
    if str_eqb provider (lit "stability") && truthy_opt stability_key then
      match stability w req prompt stability_key _id with
      | (LiveReturn r, evs) => (Return r, saved :: evs)
      | (LiveHTTPException status detail, evs) =>
          (HTTPException status detail, saved :: evs)
      | (LiveFallback, evs) =>
          let (out, evs') := demo_mode w req prompt (lit "demo") in
          (out, saved :: evs ++ evs')
      end
    else
      let (out, evs) := demo_mode w req prompt provider in
      (out, saved :: evs).

(** ** Request validation: the [Field] constraints of [GenerateRequest] *)

Definition ge_le (lo hi : Z) (x : option Z) : bool :=
  match x with
  | Some n => (lo <=? n) && (n <=? hi)
  | None => true
  end.

Definition validate (req : GenerateRequest.t) : bool :=
  (3 <=? Z.of_nat (length (GenerateRequest.prompt req)))
  && ge_le 128 1024 (GenerateRequest.width req)
  && ge_le 128 1024 (GenerateRequest.height req).

(** [POST /api/generate]: FastAPI validates the body against the model and
    answers 422 before the handler runs. *)
Definition post_api_generate (env : environ) (w : World)
    (req : GenerateRequest.t) : Outcome * list Event :=
  if validate req then generate_image env w req
  else (RequestValidationError, []).

(** ** Vocabulary of the specification *)

(** Text Python can encode: Unicode scalar values only. *)
Definition is_scalar (c : Z) : bool :=
  (0 <=? c) && (c <? 0x110000) && negb ((0xD800 <=? c) && (c <=? 0xDFFF)).

Definition encodable (s : str) : Prop := forallb is_scalar s = true.

(** A live credential is configured: the variable is set, and not to the
    empty string. *)
Definition credential (env : environ) : bool :=
  truthy_opt (getenv env (lit "STABILITY_API_KEY")).

(** The trimmed prompt is not empty: the handler's own precondition. *)
Definition has_prompt (req : GenerateRequest.t) : Prop :=
  truthy (strip (GenerateRequest.prompt req)) = true.

(** A valid request in the words of the specification: a prompt of at least
    three characters after trimming, both dimensions in [128, 1024]. *)
Definition spec_valid (req : GenerateRequest.t) : Prop :=
  (3 <=? Z.of_nat (length (strip (GenerateRequest.prompt req)))) = true
  /\ ge_le 128 1024 (GenerateRequest.width req) = true
  /\ ge_le 128 1024 (GenerateRequest.height req) = true.


(** The seed in the words of the specification. *)
Definition seed_spec (prompt_utf8 : bytes) : Z :=
  be_int (Sha256.digest prompt_utf8) mod 10 ^ 8.

(** A value a [bytes] object can hold. *)
Definition octet (b : Z) : Prop := 0 <= b < 256.


(** ** The handler's intermediate values, by name *)

Definition trimmed (req : GenerateRequest.t) : str :=
  strip (GenerateRequest.prompt req).

Definition stability_key (env : environ) : option str :=
  getenv env (lit "STABILITY_API_KEY").

Definition resolved (env : environ) (req : GenerateRequest.t) : str :=
  resolve_provider (GenerateRequest.provider req) (stability_key env).

(** The condition of line 109. *)
Definition goes_live (env : environ) (req : GenerateRequest.t) : bool :=
  str_eqb (resolved env req) (lit "stability") && truthy_opt (stability_key env).

Definition base_doc (env : environ) (req : GenerateRequest.t)
  : ImageGeneration.t :=
  ImageGeneration.mk (trimmed req) (resolved env req) None None
    (GenerateRequest.width req) (GenerateRequest.height req).

Definition saved (env : environ) (req : GenerateRequest.t) : Event :=
  CreateDocument (lit "imagegeneration") (base_doc env req).

Definition live_post (env : environ) (req : GenerateRequest.t) : Event :=
  Post stability_url (stability_headers (stability_key env))
    (stability_data (trimmed req) req) 120.

(** What the Stability API answers to the request of this call. *)
Definition live_reply (env : environ) (w : World) (req : GenerateRequest.t)
  : HttpResult :=
  requests_post w stability_url (stability_headers (stability_key env))
    (stability_data (trimmed req) req) 120.

(** The image of a demo result, by what the stock-image service did. *)
Definition demo_image (w : World) (req : GenerateRequest.t) (seed : Z) : str :=
  match requests_get w (demo_url seed (GenerateRequest.width req)
                          (GenerateRequest.height req)) 30 with
  | Responded r =>
      if raises_for_status r then b64 fallback_png else b64 (content r)
  | RequestException => b64 fallback_png
  end.

(** The five paths through the handler. *)
Inductive path (env : environ) (w : World) (req : GenerateRequest.t) : Prop :=
| Blank (_ : truthy (trimmed req) = false)
| Demo (_ : truthy (trimmed req) = true) (_ : goes_live env req = false)
| LiveRaised (_ : truthy (trimmed req) = true) (_ : goes_live env req = true)
    (_ : live_reply env w req = RequestException)
| LiveRefused (resp : Response) (_ : truthy (trimmed req) = true)
    (_ : goes_live env req = true) (_ : live_reply env w req = Responded resp)
    (_ : status_code resp <> 200)
| LiveOk (resp : Response) (_ : truthy (trimmed req) = true)
    (_ : goes_live env req = true) (_ : live_reply env w req = Responded resp)
    (_ : status_code resp = 200).

(** ** Test fixtures *)

Definition no_env : environ := fun _ => None.

Definition key_env (key : str) : environ :=
  fun name => if str_eqb name (lit "STABILITY_API_KEY") then Some key else None.

Definition png_stub : bytes := [137; 80; 78; 71].

(** A world without database, in which the two services answer as given. *)
Definition world (post get : HttpResult) : World :=
  mkWorld (fun _ _ => None) false (fun _ _ _ _ => post) (fun _ _ => get).

(** The same world with another storage collaborator. *)
Definition with_storage (w : World)
    (create : str -> ImageGeneration.t -> option Z) (handle : bool) : World :=
  mkWorld create handle (requests_post w) (requests_get w).

Definition request (prompt : string) (width height : Z) : GenerateRequest.t :=
  GenerateRequest.mk (lit prompt) None (Some width) (Some height).

Definition request_for (hint prompt : string) (width height : Z)
  : GenerateRequest.t :=
  GenerateRequest.mk (lit prompt) (Some (lit hint)) (Some width) (Some height).

Definition fox : GenerateRequest.t := request "a red fox" 512 512.

Definition sk_env : environ := key_env (lit "sk-test").

Definition padded_fox : GenerateRequest.t := request "  a red fox " 512 512.

Definition wide_fox : GenerateRequest.t := request "a red fox" 1024 512.

Definition dalle_fox : GenerateRequest.t :=
  request_for "DALLE" "a red fox" 512 512.





(** The demo result for a given label when Picsum serves [png_stub]. *)
Definition stub_result (label : string) : GenerateResponse.t :=
  GenerateResponse.mk (b64 png_stub) (lit label) None (lit "demo")
    (Some demo_note).

Definition ok_png : HttpResult := Responded (mkResponse 200 png_stub []).

Definition status_reply (status : Z) (body : string) : HttpResult :=
  Responded (mkResponse status [] (lit body)).

(** The Stability API answers 500, Picsum works. *)
Definition live_500 : World := world (status_reply 500 "upstream down") ok_png.


(** Neither service can be reached. *)
Definition offline : World := world RequestException RequestException.

(** Only Picsum can be reached. *)
Definition picsum_only : World := world RequestException ok_png.

Definition online : World := world ok_png ok_png.

(** ** Requests that differ in one field *)

Definition with_prompt (req : GenerateRequest.t) (prompt : str)
  : GenerateRequest.t :=
  GenerateRequest.mk prompt (GenerateRequest.provider req)
    (GenerateRequest.width req) (GenerateRequest.height req).

Definition with_provider (req : GenerateRequest.t) (hint : option str)
  : GenerateRequest.t :=
  GenerateRequest.mk (GenerateRequest.prompt req) hint
    (GenerateRequest.width req) (GenerateRequest.height req).

Definition with_size (req : GenerateRequest.t) (width height : option Z)
  : GenerateRequest.t :=
  GenerateRequest.mk (GenerateRequest.prompt req)
    (GenerateRequest.provider req) width height.

(** Text without whitespace at either end, and not empty. *)
Definition is_trimmed (s : str) : Prop :=
  s <> [] /\ isspace (hd 0 s) = false /\ isspace (last s 0) = false.

(** The URL the demo path fetches for a request. *)
Definition seeded_url (req : GenerateRequest.t) (seed : Z) : str :=
  demo_url seed (GenerateRequest.width req) (GenerateRequest.height req).

(** ** The diagnostics endpoint: [test_database], lines 46-88 of [main.py] *)

Module Diagnostics.
(** The [response] dictionary: its six keys are fixed, so it is a record. *)
Record t := mk {
  backend : str;
  database : str;
  database_url : option str;
  database_name : option str;
  connection_status : str;
  collections : list str
}.

Definition set_database (v : str) (r : t) : t :=
  mk (backend r) v (database_url r) (database_name r)
     (connection_status r) (collections r).

Definition set_database_url (v : option str) (r : t) : t :=
  mk (backend r) (database r) v (database_name r)
     (connection_status r) (collections r).

Definition set_database_name (v : option str) (r : t) : t :=
  mk (backend r) (database r) (database_url r) v
     (connection_status r) (collections r).

Definition set_connection_status (v : str) (r : t) : t :=
  mk (backend r) (database r) (database_url r) (database_name r)
     v (collections r).

Definition set_collections (v : list str) (r : t) : t :=
  mk (backend r) (database r) (database_url r) (database_name r)
     (connection_status r) v.
End Diagnostics.

(** The handle [database.db], as far as the endpoint reads it. *)
Record Database := mkDatabase {
  (** [db.name] when [hasattr(db, 'name')]. *)
  db_name : option str;
  (** [db.list_collection_names()]: the names, or [inl (str(e))] when it
      raises [e]. *)
  list_collection_names : str + list str
}.

(** What [from database import db] does. *)
Inductive DatabaseModule :=
| ModuleNotFound
| ImportFails (message : str)
| Imported (handle : option Database).

(** The three signs of the messages. *)
Definition check_mark : str := [0x2705].
Definition cross_mark : str := [0x274C].
Definition warning_sign : str := [0x26A0; 0xFE0F].

Definition set_or_not (value : option str) : str :=
  if truthy_opt value then check_mark ++ lit " Set"
  else cross_mark ++ lit " Not Set".

Definition test_database (env : environ) (module : DatabaseModule)
  : Diagnostics.t :=
  let response :=
    Diagnostics.mk (check_mark ++ lit " Running")
      (cross_mark ++ lit " Not Available") None None (lit "Not Connected") [] in
  let response :=
    match module with
    | Imported (Some handle) =>
        let response :=
          Diagnostics.set_database (check_mark ++ lit " Available") response in
        let response :=
          Diagnostics.set_database_url
            (Some (check_mark ++ lit " Configured")) response in
        let response :=
          Diagnostics.set_database_name
            (Some (match db_name handle with
                   | Some name => name
                   | None => check_mark ++ lit " Connected"
                   end)) response in
        let response :=
          Diagnostics.set_connection_status (lit "Connected") response in
        match list_collection_names handle with
        | inr names =>
            let response :=
              Diagnostics.set_collections (firstn 10 names) response in
            Diagnostics.set_database
              (check_mark ++ lit " Connected & Working") response
        | inl e =>
            Diagnostics.set_database
              (warning_sign ++ lit "  Connected but Error: " ++ take 50 e)
              response
        end
    | Imported None =>
        Diagnostics.set_database
          (warning_sign ++ lit "  Available but not initialized") response
    | ModuleNotFound =>
        Diagnostics.set_database
          (cross_mark
             ++ lit " Database module not found (run enable-database first)")
          response
    | ImportFails e =>
        Diagnostics.set_database (cross_mark ++ lit " Error: " ++ take 50 e)
          response
    end in
  let response :=
    Diagnostics.set_database_url
      (Some (set_or_not (getenv env (lit "DATABASE_URL")))) response in
  let response :=
    Diagnostics.set_database_name
      (Some (set_or_not (getenv env (lit "DATABASE_NAME")))) response in
  response.

(** ** Decoding base64: the inverse used to show that encoding loses nothing *)

Module Base64Decode.

(** The 6-bit value of a character of the standard alphabet. *)
Definition value (c : Z) : option Z :=
  if (65 <=? c) && (c <=? 90) then Some (c - 65)
  else if (97 <=? c) && (c <=? 122) then Some (c - 97 + 26)
  else if (48 <=? c) && (c <=? 57) then Some (c - 48 + 52)
  else if c =? 43 then Some 62
  else if c =? 47 then Some 63
  else None.

Definition is_pad (c : Z) : bool := c =? 61.

Fixpoint b64decode (s : bytes) : option bytes :=
  match s with
  | [] => Some []
  | c1 :: c2 :: c3 :: c4 :: rest =>
      match value c1, value c2 with
      | Some v1, Some v2 =>
          let o1 := Z.lor (Z.shiftl v1 2) (Z.shiftr v2 4) in
          if is_pad c3 && is_pad c4 then
            match rest with [] => Some [o1] | _ => None end
          else
            match value c3 with
            | Some v3 =>
                let o2 := Z.lor (Z.shiftl (Z.land v2 15) 4) (Z.shiftr v3 2) in
                if is_pad c4 then
                  match rest with [] => Some [o1; o2] | _ => None end
                else
                  match value c4, b64decode rest with
                  | Some v4, Some tail =>
                      Some (o1 :: o2 :: Z.lor (Z.shiftl (Z.land v3 3) 6) v4
                              :: tail)
                  | _, _ => None
                  end
            | None => None
            end
      | _, _ => None
      end
  | _ => None
  end.

End Base64Decode.

(** * Properties *)

(** ** The library models on known values *)

Example sha256_constants :
  length Sha256.K = 64%nat
  /\ hd 0 Sha256.K = 0x428a2f98 /\ last Sha256.K 0 = 0xc67178f2
  /\ Sha256.sa Sha256.H0 = 0x6a09e667 /\ Sha256.sh Sha256.H0 = 0x5be0cd19.
Proof. vm_compute. repeat split. Qed.

Example sha256_abc :
  Sha256.hexdigest (lit "abc")
  = lit "ba7816bf8f01cfea414140de5dae2223b00361a396177a9cb410ff61f20015ad".
Proof. vm_compute. reflexivity. Qed.

Example sha256_empty :
  Sha256.hexdigest []
  = lit "e3b0c44298fc1c149afbf4c8996fb92427ae41e4649b934ca495991b7852b855".
Proof. vm_compute. reflexivity. Qed.

Example sha256_two_blocks :
  Sha256.hexdigest (repeat 97 100)
  = lit "2816597888e4a0d3a36b82b83316ab32680eb8f00f8cd3b904d681246d285a0e".
Proof. vm_compute. reflexivity. Qed.

Example b64_fallback_png :
  b64 fallback_png
  = lit "iVBORw0KGgoAAAANSUhEUgAAAAEAAAABCAYAAAAfFcSJAAAADElEQVR4nGP4DwQACfsD/YZXxnoAAAAASUVORK5CYII=".
Proof. vm_compute. reflexivity. Qed.

Example utf8_e_acute_euro_emoji :
  encode_utf8 [0xE9; 0x20AC; 0x1F98A]
  = Some [0xC3; 0xA9; 0xE2; 0x82; 0xAC; 0xF0; 0x9F; 0xA6; 0x8A].
Proof. reflexivity. Qed.

Example lower_beyond_ascii :
  lower (0xC9 :: lit "COLE") = 0xE9 :: lit "cole"
  /\ lower (lit "STABILITY") = lit "stability"
  /\ lower [0x130] = [0x69; 0x307]
  /\ lower [0x212A] = lit "k"
  /\ lower [0x39F; 0x394; 0x39F; 0x3A3] = [0x3BF; 0x3B4; 0x3BF; 0x3C2]
  /\ lower [0x3A3; 0x39F; 0x3A3; 0x2E; 0x20; 0x3A3] = [0x3C3; 0x3BF; 0x3C2; 0x2E; 0x20; 0x3C3].
Proof. vm_compute. repeat split. Qed.

Example strip_inner_space_kept :
  strip (lit "  a  b ") = lit "a  b".
Proof. reflexivity. Qed.

(** ** Strings *)

Section Strings.

Lemma str_eqb_eq (s t : str) : str_eqb s t = true <-> s = t.
Proof.
  revert t; induction s as [|c s IH]; intros [|d t]; simpl;
    try (split; [discriminate | discriminate]); try tauto.
  rewrite andb_true_iff, Z.eqb_eq, IH.
  split; [intros [-> ->]; reflexivity | intros [= -> ->]; auto].
Qed.

Lemma str_eqb_refl (s : str) : str_eqb s s = true.
Proof. apply str_eqb_eq; reflexivity. Qed.

Lemma truthy_true (s : str) : truthy s = true <-> s <> [].
Proof. destruct s; simpl; split; congruence. Qed.

Lemma lstrip_nil (s : str) : lstrip s = [] <-> forallb isspace s = true.
Proof.
  induction s as [|c s IH]; simpl; [tauto|].
  destruct (isspace c); simpl; [exact IH | split; discriminate].
Qed.

Lemma lstrip_fixed (s : str) : forallb isspace (lstrip s) = true -> lstrip s = [].
Proof.
  induction s as [|c s IH]; simpl; [reflexivity|].
  destruct (isspace c) eqn:E; [exact IH|].
  simpl; rewrite E; discriminate.
Qed.

Lemma forallb_rev {A} (f : A -> bool) (l : list A) :
  forallb f (rev l) = forallb f l.
Proof.
  induction l as [|a l IH]; simpl; [reflexivity|].
  rewrite forallb_app, IH; simpl. rewrite andb_true_r, andb_comm; reflexivity.
Qed.

Lemma rstrip_nil (s : str) : rstrip s = [] <-> forallb isspace s = true.
Proof.
  unfold rstrip. rewrite <- (forallb_rev isspace s), <- lstrip_nil.
  split; intros H.
  - apply (f_equal (@rev Z)) in H. rewrite rev_involutive in H. exact H.
  - rewrite H; reflexivity.
Qed.

(** A prompt trims to nothing exactly when it is whitespace only. *)
Lemma strip_nil (s : str) : strip s = [] <-> forallb isspace s = true.
Proof.
  unfold strip. rewrite rstrip_nil. split; intros H.
  - apply lstrip_nil, lstrip_fixed, H.
  - apply lstrip_nil in H. rewrite H. reflexivity.
Qed.

Lemma lstrip_length (s : str) : (length (lstrip s) <= length s)%nat.
Proof.
  induction s as [|c s IH]; simpl; [lia|]. destruct (isspace c); simpl; lia.
Qed.

Lemma strip_length (s : str) : (length (strip s) <= length s)%nat.
Proof.
  unfold strip, rstrip. rewrite length_rev.
  etransitivity; [apply lstrip_length|]. rewrite length_rev. apply lstrip_length.
Qed.

Lemma lstrip_forallb (f : Z -> bool) (s : str) :
  forallb f s = true -> forallb f (lstrip s) = true.
Proof.
  induction s as [|c s IH]; simpl; [trivial|].
  intros [Hc Hs]%andb_true_iff.
  destruct (isspace c); [auto | simpl; rewrite Hc, Hs; reflexivity].
Qed.

Lemma strip_forallb (f : Z -> bool) (s : str) :
  forallb f s = true -> forallb f (strip s) = true.
Proof.
  intros H. unfold strip, rstrip.
  rewrite forallb_rev. apply lstrip_forallb.
  rewrite forallb_rev. apply lstrip_forallb, H.
Qed.

Lemma utf8_char_scalar (c : Z) :
  is_scalar c = true -> exists b, utf8_char c = Some b.
Proof.
  unfold is_scalar, utf8_char. intros H.
  destruct (c <? 0) eqn:E0; [lia|].
  destruct (c <? 128); [eauto|].
  destruct (c <? 2048); [eauto|].
  destruct (c <? 65536).
  - destruct ((55296 <=? c) && (c <=? 57343)); [|eauto].
    rewrite andb_false_r in H; discriminate.
  - destruct (c <? 1114112); [eauto|].
    rewrite andb_false_r in H; discriminate.
Qed.

(** Encoding succeeds on text made of scalar values. *)
Lemma encode_utf8_total (s : str) :
  encodable s -> exists bs, encode_utf8 s = Some bs.
Proof.
  unfold encodable. induction s as [|c s IH]; simpl; [eauto|].
  intros [Hc Hs]%andb_true_iff.
  destruct (utf8_char_scalar c Hc) as [b ->].
  destruct (IH Hs) as [bs ->]. eauto.
Qed.

Lemma strip_encodable (s : str) : encodable s -> encodable (strip s).
Proof. apply strip_forallb. Qed.

End Strings.

(** ** The seed: hexadecimal digest read back as an integer *)

Section Seed.

Lemma hex_value_digit (d : Z) :
  0 <= d < 16 -> hex_value (Sha256.hex_digit d) = Some d.
Proof.
  intros H.
  assert (d = 0 \/ d = 1 \/ d = 2 \/ d = 3 \/ d = 4 \/ d = 5 \/ d = 6 \/ d = 7
          \/ d = 8 \/ d = 9 \/ d = 10 \/ d = 11 \/ d = 12 \/ d = 13 \/ d = 14
          \/ d = 15) as D by lia.
  repeat (destruct D as [-> | D]; [reflexivity|]). subst; reflexivity.
Qed.

Lemma int16_from_hex (bs : bytes) : forall acc,
  Forall octet bs ->
  int16_from acc (Sha256.hex bs) = Some (be_int_from acc bs).
Proof.
  induction bs as [|b bs IH]; intros acc H;
    cbn [Sha256.hex int16_from be_int_from]; [reflexivity|].
  inversion H as [|? ? Hb Hbs]; subst. unfold octet in Hb.
  rewrite hex_value_digit by (split; [apply Z.div_pos | apply Z.div_lt_upper_bound]; lia).
  rewrite hex_value_digit by (apply Z.mod_pos_bound; lia).
  rewrite IH by assumption. do 2 f_equal.
  pose proof (Z.div_mod b 16). lia.
Qed.

Lemma word_bytes_octets (x : Z) : Forall octet (Sha256.word_bytes x).
Proof.
  unfold Sha256.word_bytes, octet.
  repeat constructor; apply Z.mod_pos_bound; lia.
Qed.

Lemma digest_octets (msg : bytes) : Forall octet (Sha256.digest msg).
Proof.
  unfold Sha256.digest. cbv zeta.
  repeat (apply Forall_app; split); apply word_bytes_octets.
Qed.

Lemma digest_length (msg : bytes) : length (Sha256.digest msg) = 32%nat.
Proof. unfold Sha256.digest. cbv zeta. reflexivity. Qed.

(** [int(hexdigest, 16)] is the digest read as one big-endian integer. *)
Lemma int16_hexdigest (msg : bytes) :
  int16 (Sha256.hexdigest msg) = Some (be_int (Sha256.digest msg)).
Proof.
  unfold int16, Sha256.hexdigest, be_int.
  rewrite <- (int16_from_hex _ 0 (digest_octets msg)).
  pose proof (digest_length msg) as L.
  destruct (Sha256.digest msg); [discriminate L | reflexivity].
Qed.

Lemma demo_seed_eq (prompt : str) :
  demo_seed prompt =
  match encode_utf8 prompt with
  | Some bs => inr (seed_spec bs)
  | None => inl UnicodeEncodeError
  end.
Proof.
  unfold demo_seed, seed_spec.
  destruct (encode_utf8 prompt); [|reflexivity].
  rewrite int16_hexdigest. reflexivity.
Qed.

Lemma demo_seed_total (prompt : str) :
  encodable prompt -> exists seed, demo_seed prompt = inr seed.
Proof.
  intros H. rewrite demo_seed_eq.
  destruct (encode_utf8_total _ H) as [bs ->]. eauto.
Qed.

End Seed.

(** ** The handler, path by path *)

Section Paths.

Variables (env : environ) (w : World) (req : GenerateRequest.t).

Lemma demo_mode_seeded (text label : str) (seed : Z) :
  demo_seed text = inr seed ->
  demo_mode w req text label =
    (Return (GenerateResponse.mk (demo_image w req seed) label None
               (lit "demo") (Some demo_note)),
     [Get (demo_url seed (GenerateRequest.width req)
             (GenerateRequest.height req)) 30]).
Proof. intros H. unfold demo_mode, demo_image. rewrite H. reflexivity. Qed.

Lemma demo_mode_unseeded (text label : str) (e : Uncaught) :
  demo_seed text = inl e -> demo_mode w req text label = (Raise e, []).
Proof. intros H. unfold demo_mode. rewrite H. reflexivity. Qed.

Ltac enter :=
  unfold generate_image, stability;
  fold (trimmed req); fold (stability_key env); fold (resolved env req);
  fold (goes_live env req); fold (live_reply env w req).

(** Blank prompt: 400, and nothing was called. *)
Lemma generate_image_blank :
  truthy (trimmed req) = false ->
  generate_image env w req
  = (HTTPException 400 (lit "Prompt is required"), []).
Proof. intros H. enter. rewrite H. reflexivity. Qed.

(** No live attempt: the demo path under the resolved label. *)
Lemma generate_image_demo :
  truthy (trimmed req) = true -> goes_live env req = false ->
  generate_image env w req =
    (fst (demo_mode w req (trimmed req) (resolved env req)),
     saved env req :: snd (demo_mode w req (trimmed req) (resolved env req))).
Proof.
  intros H L. enter. rewrite H, L. cbn [negb].
  destruct (demo_mode w req (trimmed req) (resolved env req)); reflexivity.
Qed.

(** Live attempt, the client raised: the demo path under the label [demo]. *)
Lemma generate_image_live_raised :
  truthy (trimmed req) = true -> goes_live env req = true ->
  live_reply env w req = RequestException ->
  generate_image env w req =
    (fst (demo_mode w req (trimmed req) (lit "demo")),
     saved env req :: live_post env req
       :: snd (demo_mode w req (trimmed req) (lit "demo"))).
Proof.
  intros H L R. enter. rewrite H, L, R. cbn [negb].
  destruct (demo_mode w req (trimmed req) (lit "demo")); reflexivity.
Qed.

(** Live attempt, a status other than 200: the handler raises 500. *)
Lemma generate_image_live_refused (resp : Response) :
  truthy (trimmed req) = true -> goes_live env req = true ->
  live_reply env w req = Responded resp -> status_code resp <> 200 ->
  generate_image env w req =
    (HTTPException 500
       (lit "Stability API error: " ++ str_of_int (status_code resp)
          ++ lit " " ++ take 200 (text resp)),
     [saved env req; live_post env req]).
Proof.
  intros H L R S. enter. rewrite H, L, R. cbn [negb].
  apply Z.eqb_neq in S. rewrite S. reflexivity.
Qed.

(** Live attempt, status 200: the live result. *)
Lemma generate_image_live_ok (resp : Response) :
  truthy (trimmed req) = true -> goes_live env req = true ->
  live_reply env w req = Responded resp -> status_code resp = 200 ->
  generate_image env w req =
    (Return (GenerateResponse.mk (b64 (content resp)) (lit "stability")
               (Some (lit "stable-image-core")) (lit "live") None),
     saved env req :: live_post env req ::
       (if db w && is_some (create_document w (lit "imagegeneration")
                              (base_doc env req))
        then [UpdateOne (lit "imagegeneration")] else [])).
Proof.
  intros H L R S. enter. rewrite H, L, R. cbn [negb].
  apply Z.eqb_eq in S. rewrite S. reflexivity.
Qed.

Lemma paths : path env w req.
Proof.
  destruct (truthy (trimmed req)) eqn:H; [|apply Blank; assumption].
  destruct (goes_live env req) eqn:L; [|apply Demo; assumption].
  destruct (live_reply env w req) as [resp|] eqn:R;
    [|apply LiveRaised; assumption].
  destruct (Z.eq_dec (status_code resp) 200).
  - eapply LiveOk; eauto.
  - eapply LiveRefused; eauto.
Qed.

End Paths.

(** ** What the handler calls *)

Section Trace.

Variables (env : environ) (w : World) (req : GenerateRequest.t).

Lemma demo_mode_cases (text label : str) :
  (exists e, demo_seed text = inl e
             /\ demo_mode w req text label = (Raise e, []))
  \/ (exists seed, demo_seed text = inr seed
        /\ demo_mode w req text label =
             (Return (GenerateResponse.mk (demo_image w req seed) label None
                        (lit "demo") (Some demo_note)),
              [Get (demo_url seed (GenerateRequest.width req)
                      (GenerateRequest.height req)) 30])).
Proof.
  destruct (demo_seed text) as [e | seed] eqn:E; [left | right].
  - exists e; split; [reflexivity | apply demo_mode_unseeded, E].
  - exists seed; split; [reflexivity | apply demo_mode_seeded, E].
Qed.

(** The demo path of a prompt that can be encoded always returns. *)
Lemma demo_mode_returns (text label : str) :
  encodable text ->
  exists seed, demo_seed text = inr seed
    /\ demo_mode w req text label =
         (Return (GenerateResponse.mk (demo_image w req seed) label None
                    (lit "demo") (Some demo_note)),
          [Get (demo_url seed (GenerateRequest.width req)
                  (GenerateRequest.height req)) 30]).
Proof.
  intros H. destruct (demo_seed_total _ H) as [seed E].
  exists seed; split; [exact E | apply demo_mode_seeded, E].
Qed.

(** The network calls of the handler: the only request ever posted is the
    one to the Stability API, the only one fetched is the seeded URL of the
    trimmed prompt. *)
Lemma calls_of_the_handler (e : Event) :
  In e (snd (generate_image env w req)) ->
  match e with
  | Post _ _ _ _ => e = live_post env req
  | Get url timeout =>
      exists seed, demo_seed (trimmed req) = inr seed
        /\ url = demo_url seed (GenerateRequest.width req)
                   (GenerateRequest.height req)
        /\ timeout = 30
  | _ => True
  end.
Proof.
  assert (D : forall label, In e (snd (demo_mode w req (trimmed req) label)) ->
            exists seed, demo_seed (trimmed req) = inr seed
              /\ e = Get (demo_url seed (GenerateRequest.width req)
                            (GenerateRequest.height req)) 30).
  { intros label.
    destruct (demo_mode_cases (trimmed req) label)
      as [(x & _ & ->) | (seed & E & ->)]; simpl; [tauto|].
    intros [<- | []]. eauto. }
  destruct (paths env w req) as [B | T L | T L R | resp T L R S | resp T L R S].
  - rewrite generate_image_blank by assumption. intros [].
  - rewrite generate_image_demo by assumption. simpl.
    intros [<- | I]; [exact I|].
    destruct (D _ I) as (seed & E & ->). eauto.
  - rewrite generate_image_live_raised by assumption. simpl.
    intros [<- | [<- | I]]; [exact I | reflexivity |].
    destruct (D _ I) as (seed & E & ->). eauto.
  - rewrite (generate_image_live_refused env w req resp) by assumption. simpl.
    intros [<- | [<- | []]]; [exact I | reflexivity].
  - rewrite (generate_image_live_ok env w req resp) by assumption. simpl.
    intros [<- | [<- | I]]; [exact I | reflexivity |].
    destruct (db w && _); simpl in I; [destruct I as [<- | []]; exact I | destruct I].
Qed.

End Trace.

(** ** Provider resolution *)



Lemma stability_data_aspect (prompt : str) (req : GenerateRequest.t) :
  dict_get (lit "aspect_ratio") (stability_data prompt req) = Some (lit "1:1").
Proof.
  unfold stability_data.
  destruct (opt_Z_eqb (GenerateRequest.width req) (GenerateRequest.height req));
    reflexivity.
Qed.

Lemma goes_live_iff (env : environ) (req : GenerateRequest.t) :
  goes_live env req = true
  <-> resolved env req = lit "stability" /\ credential env = true.
Proof.
  unfold goes_live, credential, stability_key.
  rewrite andb_true_iff, str_eqb_eq. reflexivity.
Qed.

Lemma no_credential_no_live (env : environ) (req : GenerateRequest.t) :
  credential env = false -> goes_live env req = false.
Proof.
  unfold goes_live, credential, stability_key. intros ->. apply andb_false_r.
Qed.

(** What the specification calls a valid request passes both the model
    validation and the handler's own check. *)
Lemma spec_valid_accepted (req : GenerateRequest.t) :
  spec_valid req -> validate req = true /\ has_prompt req.
Proof.
  intros (L & W & H). unfold validate, has_prompt. rewrite W, H.
  apply Z.leb_le in L. split.
  - rewrite !andb_true_r. apply Z.leb_le.
    pose proof (strip_length (GenerateRequest.prompt req)). lia.
  - destruct (strip (GenerateRequest.prompt req)); [simpl in L; lia | reflexivity].
Qed.

Lemma b64_fallback_not_empty : b64 fallback_png <> [].
Proof. rewrite b64_fallback_png. discriminate. Qed.

(** * The claims *)

(** Settles the leading conjunct of a closed statement by evaluation. *)
Ltac evaluate :=
  match goal with
  | |- _ /\ _ =>
      split; [vm_compute;
              first [reflexivity | exact I | discriminate | solve [repeat split]] |]
  end.

(** ** C1: a failing live call *)

(** C1, as stated, fails: with a credential configured and the live
    provider resolved, a 500 answer of the Stability API is not absorbed.
    The handler raises [HTTPException(500)] (line 129), the clause
    [except HTTPException: raise] (lines 148-149) lets it through, and the
    caller gets an error instead of a demo result. *)
Lemma live_500_reaches_the_caller :
  spec_valid fox
  /\ credential sk_env = true
  /\ resolved sk_env fox = lit "stability"
  /\ live_reply sk_env live_500 fox = status_reply 500 "upstream down"
  /\ generate_image sk_env live_500 fox
     = (HTTPException 500 (lit "Stability API error: 500 upstream down"),
        [saved sk_env fox; live_post sk_env fox])
  /\ ~ (exists r, fst (generate_image sk_env live_500 fox) = Return r
                  /\ GenerateResponse.mode r = lit "demo").
Proof.
  repeat evaluate.
  intros (r & H & _). vm_compute in H. discriminate H.
Qed.

(** C1, amended: for a request with a prompt, a configured credential and
    the live provider resolved, a transport error of the live call (the
    HTTP client raises) is absorbed, and the result is a demo result labelled
    [demo]; an answer with a status other than 200 makes the handler raise
    HTTP 500 with the detail [Stability API error: <status> <body[:200]>]. *)
Theorem live_call_failure (env : environ) (w : World) (req : GenerateRequest.t) :
  has_prompt req ->
  encodable (GenerateRequest.prompt req) ->
  credential env = true ->
  resolved env req = lit "stability" ->
  match live_reply env w req with
  | RequestException =>
      exists r, fst (generate_image env w req) = Return r
        /\ GenerateResponse.mode r = lit "demo"
        /\ GenerateResponse.provider r = lit "demo"
  | Responded resp =>
      status_code resp <> 200 ->
      fst (generate_image env w req)
      = HTTPException 500
          (lit "Stability API error: " ++ str_of_int (status_code resp)
             ++ lit " " ++ take 200 (text resp))
  end.
Proof.
  intros P E C R.
  assert (L : goes_live env req = true) by (apply goes_live_iff; auto).
  destruct (live_reply env w req) as [resp|] eqn:Q.
  - intros S. rewrite (generate_image_live_refused env w req resp) by assumption.
    reflexivity.
  - rewrite generate_image_live_raised by assumption.
    destruct (demo_mode_returns w req (trimmed req) (lit "demo")
                (strip_encodable _ E)) as (seed & _ & ->).
    eexists; repeat split.
Qed.

Lemma live_call_failure_witness :
  exists r, fst (generate_image sk_env picsum_only fox) = Return r
    /\ GenerateResponse.mode r = lit "demo"
    /\ GenerateResponse.provider r = lit "demo".
Proof.
  exact (live_call_failure sk_env picsum_only fox
           eq_refl eq_refl eq_refl eq_refl).
Defined.

(** ** C2: both services fail *)




(** ** C3: the seed *)

(** C3: the seed of line 155 is a function of the prompt text alone: it is
    the SHA-256 digest of the prompt's UTF-8 octets, read as one big-endian
    integer over all 32 octets, modulo 10^8 (text that Python cannot encode
    raises [UnicodeEncodeError]). The handler applies it to the prompt it
    has trimmed on line 93. For the prompt "a red fox" the digest is
    647c3a65...7813beb4 and the seed is 78648756. *)
Theorem seed_is_sha256_mod_1e8 :
  (forall prompt : str,
      demo_seed prompt =
      match encode_utf8 prompt with
      | Some octets => inr (be_int (Sha256.digest octets) mod 10 ^ 8)
      | None => inl UnicodeEncodeError
      end)
  /\ encode_utf8 (lit "a red fox") = Some (lit "a red fox")
  /\ Sha256.hexdigest (lit "a red fox")
     = lit "647c3a6520b87d387c85a08faff768cf92f436d1477dabb951d7c6417813beb4"
  /\ be_int (Sha256.digest (lit "a red fox"))
     = 45450776922047773493972140489398203953436420610881640447507258435757778648756
  /\ demo_seed (lit "a red fox") = inr 78648756.
Proof.
  split.
  { intros prompt. rewrite demo_seed_eq. unfold seed_spec. reflexivity. }
  do 3 evaluate. vm_compute. reflexivity.
Qed.

(** ** C4: prompts that are rejected *)




(** ** C5: the provider label of a result *)




(** ** C6: no credential *)

(** C6: for a request with a prompt, when no credential is configured the
    handler returns a result of mode [demo] with a non-empty note, whatever
    the provider hint. *)
Theorem demo_without_credential
    (env : environ) (w : World) (req : GenerateRequest.t) :
  has_prompt req ->
  encodable (GenerateRequest.prompt req) ->
  credential env = false ->
  exists r note, fst (generate_image env w req) = Return r
    /\ GenerateResponse.mode r = lit "demo"
    /\ GenerateResponse.note r = Some note
    /\ note <> [].
Proof.
  intros P E C.
  rewrite generate_image_demo by (auto using no_credential_no_live).
  destruct (demo_mode_returns w req (trimmed req) (resolved env req)
              (strip_encodable _ E)) as (seed & _ & ->).
  eexists; exists demo_note; repeat split. discriminate.
Qed.

Lemma demo_without_credential_witness :
  exists r note,
    fst (generate_image no_env online (request_for "stability" "a red fox" 512 512))
    = Return r
    /\ GenerateResponse.mode r = lit "demo"
    /\ GenerateResponse.note r = Some note
    /\ note <> [].
Proof.
  exact (demo_without_credential no_env online
           (request_for "stability" "a red fox" 512 512)
           eq_refl eq_refl eq_refl).
Defined.

(** ** C7: provider resolution *)




(** ** C8: the aspect ratio sent to the live backend *)

(** C8: every request the handler posts to the live backend carries the
    aspect ratio [1:1], whatever the width and height asked for. *)
Theorem live_aspect_ratio_is_square
    (env : environ) (w : World) (req : GenerateRequest.t)
    (url : str) (headers data : dict) (timeout : Z) :
  In (Post url headers data timeout) (snd (generate_image env w req)) ->
  dict_get (lit "aspect_ratio") data = Some (lit "1:1").
Proof.
  intros H. apply calls_of_the_handler in H. injection H as -> -> -> ->.
  apply stability_data_aspect.
Qed.

Lemma live_aspect_ratio_is_square_witness :
  dict_get (lit "aspect_ratio") (stability_data (trimmed wide_fox) wide_fox)
  = Some (lit "1:1").
Proof.
  apply (live_aspect_ratio_is_square sk_env online wide_fox stability_url
           (stability_headers (stability_key sk_env))
           (stability_data (trimmed wide_fox) wide_fox) 120).
  vm_compute. right. left. reflexivity.
Defined.

(** ** C9: persistence is advisory *)

(** C9: whatever the storage collaborator does (module missing, write
    raising, write succeeding, handle present or not), the outcome of the
    handler is the same, and so are its network calls. *)
Theorem persistence_never_changes_the_result
    (env : environ) (w : World) (req : GenerateRequest.t)
    (create : str -> ImageGeneration.t -> option Z) (handle : bool) :
  fst (generate_image env (with_storage w create handle) req)
  = fst (generate_image env w req)
  /\ filter is_network (snd (generate_image env (with_storage w create handle) req))
     = filter is_network (snd (generate_image env w req)).
Proof.
  assert (D : forall label,
             demo_mode (with_storage w create handle) req (trimmed req) label
             = demo_mode w req (trimmed req) label) by reflexivity.
  assert (N : forall label,
             filter is_network (snd (demo_mode w req (trimmed req) label))
             = snd (demo_mode w req (trimmed req) label)).
  { intros label.
    destruct (demo_mode_cases w req (trimmed req) label)
      as [(e & _ & ->) | (seed & _ & ->)]; reflexivity. }
  set (w' := with_storage w create handle).
  assert (Q : live_reply env w' req = live_reply env w req) by reflexivity.
  destruct (paths env w req) as [B | T L | T L R | resp T L R S | resp T L R S].
  - rewrite !generate_image_blank by assumption. split; reflexivity.
  - rewrite !generate_image_demo by assumption. simpl. rewrite D. auto.
  - rewrite !generate_image_live_raised by (rewrite ?Q; assumption).
    simpl. rewrite D. auto.
  - rewrite !(generate_image_live_refused env _ req resp)
      by (rewrite ?Q; assumption).
    split; reflexivity.
  - rewrite !(generate_image_live_ok env _ req resp)
      by (rewrite ?Q; assumption).
    split; [reflexivity|]. simpl.
    repeat match goal with
           | |- context [if ?c then _ else _] => destruct c
           end; reflexivity.
Qed.

(** ** C10: surrounding whitespace *)

(** C10: two requests whose prompts are equal after trimming, with equal
    width and height, ask the stock-image service for the same URL: the
    seed in it is the seed of the trimmed prompt. *)
Theorem trimmed_prompt_decides_the_demo_image
    (env1 env2 : environ) (w1 w2 : World) (req1 req2 : GenerateRequest.t)
    (url1 url2 : str) (t1 t2 : Z) :
  strip (GenerateRequest.prompt req1) = strip (GenerateRequest.prompt req2) ->
  GenerateRequest.width req1 = GenerateRequest.width req2 ->
  GenerateRequest.height req1 = GenerateRequest.height req2 ->
  In (Get url1 t1) (snd (generate_image env1 w1 req1)) ->
  In (Get url2 t2) (snd (generate_image env2 w2 req2)) ->
  url1 = url2
  /\ exists seed,
       demo_seed (strip (GenerateRequest.prompt req1)) = inr seed
       /\ demo_seed (strip (GenerateRequest.prompt req2)) = inr seed
       /\ url1 = demo_url seed (GenerateRequest.width req1)
                   (GenerateRequest.height req1).
Proof.
  intros P W H I1 I2.
  apply calls_of_the_handler in I1 as (s1 & E1 & -> & _).
  apply calls_of_the_handler in I2 as (s2 & E2 & -> & _).
  unfold trimmed in E1, E2. rewrite <- P in E2.
  assert (s2 = s1) as -> by congruence.
  rewrite <- W, <- H, <- P. split; [reflexivity|]. exists s1. auto.
Qed.

Lemma trimmed_prompt_decides_the_demo_image_witness :
  demo_url 78648756 (Some 512) (Some 512) = demo_url 78648756 (Some 512) (Some 512)
  /\ exists seed,
       demo_seed (strip (GenerateRequest.prompt padded_fox)) = inr seed
       /\ demo_seed (strip (GenerateRequest.prompt fox)) = inr seed
       /\ demo_url 78648756 (Some 512) (Some 512)
          = demo_url seed (GenerateRequest.width padded_fox)
              (GenerateRequest.height padded_fox).
Proof.
  apply (trimmed_prompt_decides_the_demo_image no_env sk_env online offline
           padded_fox fox _ _ 30 30).
  - reflexivity.
  - reflexivity.
  - reflexivity.
  - vm_compute. right. left. reflexivity.
  - vm_compute. right. right. left. reflexivity.
Defined.

(** * Further properties of the code *)

(** ** Helper facts *)

Lemma stability_data_closed (prompt : str) (req : GenerateRequest.t) :
  stability_data prompt req
  = [(lit "prompt", prompt); (lit "output_format", lit "png");
     (lit "aspect_ratio", lit "1:1")].
Proof.
  unfold stability_data.
  destruct (opt_Z_eqb (GenerateRequest.width req) (GenerateRequest.height req));
    reflexivity.
Qed.

(** The handler reads the request through four values only. *)
Lemma generate_image_ext (env : environ) (w : World)
    (req1 req2 : GenerateRequest.t) :
  trimmed req1 = trimmed req2 ->
  resolved env req1 = resolved env req2 ->
  GenerateRequest.width req1 = GenerateRequest.width req2 ->
  GenerateRequest.height req1 = GenerateRequest.height req2 ->
  generate_image env w req1 = generate_image env w req2.
Proof.
  unfold trimmed, resolved, stability_key. intros P R W H.
  unfold generate_image, stability, demo_mode.
  rewrite !stability_data_closed, P, R, W, H. reflexivity.
Qed.

Lemma demo_path_has_no_post (w : World) (req : GenerateRequest.t)
    (text label : str) (e : Event) :
  In e (snd (demo_mode w req text label)) ->
  exists seed, demo_seed text = inr seed /\ e = Get (seeded_url req seed) 30.
Proof.
  destruct (demo_mode_cases w req text label)
    as [(x & _ & ->) | (seed & E & ->)]; simpl; [tauto|].
  intros [<- | []]. eauto.
Qed.

(** The whole trace, path by path. *)
Lemma trace_shape (env : environ) (w : World) (req : GenerateRequest.t) :
  has_prompt req ->
  exists tail, snd (generate_image env w req) = saved env req :: tail
    /\ (tail = []
        \/ tail = [live_post env req]
        \/ tail = [live_post env req; UpdateOne (lit "imagegeneration")]
        \/ exists seed, demo_seed (trimmed req) = inr seed
             /\ (tail = [Get (seeded_url req seed) 30]
                 \/ tail = [live_post env req; Get (seeded_url req seed) 30])).
Proof.
  intros P.
  destruct (paths env w req) as [B | T L | T L R | resp T L R S | resp T L R S].
  - unfold has_prompt in P. unfold trimmed in B. congruence.
  - rewrite generate_image_demo by assumption. eexists; split; [reflexivity|].
    destruct (demo_mode_cases w req (trimmed req) (resolved env req))
      as [(x & _ & ->) | (seed & E & ->)]; simpl; [auto|].
    do 3 right. exists seed. auto.
  - rewrite generate_image_live_raised by assumption.
    eexists; split; [reflexivity|].
    destruct (demo_mode_cases w req (trimmed req) (lit "demo"))
      as [(x & _ & ->) | (seed & E & ->)]; simpl; [auto|].
    do 3 right. exists seed. auto.
  - rewrite (generate_image_live_refused env w req resp) by assumption.
    eexists; split; [reflexivity|]. auto.
  - rewrite (generate_image_live_ok env w req resp) by assumption.
    eexists; split; [reflexivity|].
    destruct (db w && _); auto.
Qed.

(** ** The status codes of [POST /api/generate] *)

(** X1: the endpoint answers with one of four statuses: 200, 400, 422 or
    500. *)
Theorem endpoint_status_codes
    (env : environ) (w : World) (req : GenerateRequest.t) :
  In (http_status (fst (post_api_generate env w req))) [200; 400; 422; 500].
Proof.
  unfold post_api_generate. destruct (validate req); [|simpl; auto].
  destruct (paths env w req) as [B | T L | T L R | resp T L R S | resp T L R S].
  - rewrite generate_image_blank by assumption. simpl; auto.
  - rewrite generate_image_demo by assumption.
    destruct (demo_mode_cases w req (trimmed req) (resolved env req))
      as [(x & _ & ->) | (seed & E & ->)]; simpl; auto.
  - rewrite generate_image_live_raised by assumption.
    destruct (demo_mode_cases w req (trimmed req) (lit "demo"))
      as [(x & _ & ->) | (seed & E & ->)]; simpl; auto.
  - rewrite (generate_image_live_refused env w req resp) by assumption.
    simpl; auto.
  - rewrite (generate_image_live_ok env w req resp) by assumption. simpl; auto.
Qed.

(** X2: the answer is 422 exactly when the request model refuses the body,
    and 400 exactly when the body is accepted and the prompt is whitespace
    only. *)
Theorem client_errors_characterised
    (env : environ) (w : World) (req : GenerateRequest.t) :
  (http_status (fst (post_api_generate env w req)) =? 422)
  = negb (validate req)
  /\ (http_status (fst (post_api_generate env w req)) =? 400)
     = validate req && forallb isspace (GenerateRequest.prompt req).
Proof.
  unfold post_api_generate. destruct (validate req); [|split; reflexivity].
  cbn [negb andb].
  assert (B : truthy (trimmed req)
              = negb (forallb isspace (GenerateRequest.prompt req))).
  { unfold trimmed. destruct (forallb isspace _) eqn:F.
    - apply strip_nil in F. rewrite F. reflexivity.
    - destruct (strip (GenerateRequest.prompt req)) eqn:S; [|reflexivity].
      apply strip_nil in S. congruence. }
  destruct (paths env w req) as [T | T L | T L R | resp T L R S | resp T L R S];
    rewrite T in B; symmetry in B;
    [apply negb_false_iff in B | apply negb_true_iff in B ..]; rewrite B.
  - rewrite generate_image_blank by assumption. split; reflexivity.
  - rewrite generate_image_demo by assumption.
    destruct (demo_mode_cases w req (trimmed req) (resolved env req))
      as [(x & _ & ->) | (seed & E & ->)]; split; reflexivity.
  - rewrite generate_image_live_raised by assumption.
    destruct (demo_mode_cases w req (trimmed req) (lit "demo"))
      as [(x & _ & ->) | (seed & E & ->)]; split; reflexivity.
  - rewrite (generate_image_live_refused env w req resp) by assumption.
    split; reflexivity.
  - rewrite (generate_image_live_ok env w req resp) by assumption.
    split; reflexivity.
Qed.

(** X3: a request with a dimension below 128 or above 1024 is refused with
    422 before the handler runs: nothing is persisted, nothing is fetched. *)
Theorem size_out_of_range_rejected
    (env : environ) (w : World) (req : GenerateRequest.t) (n : Z) :
  GenerateRequest.width req = Some n \/ GenerateRequest.height req = Some n ->
  n < 128 \/ 1024 < n ->
  post_api_generate env w req = (RequestValidationError, []).
Proof.
  intros D R. unfold post_api_generate.
  assert (V : validate req = false); [|rewrite V; reflexivity].
  assert (F : ge_le 128 1024 (Some n) = false).
  { simpl. destruct R; [apply andb_false_intro1 | apply andb_false_intro2]; lia. }
  unfold validate. destruct D as [-> | ->]; rewrite F.
  - rewrite andb_false_r. reflexivity.
  - apply andb_false_r.
Qed.

Lemma size_out_of_range_rejected_witness :
  post_api_generate sk_env online (request "a red fox" 512 2048)
  = (RequestValidationError, []).
Proof.
  apply (size_out_of_range_rejected sk_env online
           (request "a red fox" 512 2048) 2048).
  - right. reflexivity.
  - right. lia.
Defined.

(** X4: a request that passes validation, has a prompt and can be encoded
    fails in one way only: the live backend answered with a status other
    than 200, which comes back as HTTP 500. Otherwise a result is returned. *)
Theorem only_live_refusal_fails
    (env : environ) (w : World) (req : GenerateRequest.t) :
  validate req = true ->
  has_prompt req ->
  encodable (GenerateRequest.prompt req) ->
  (exists r, fst (post_api_generate env w req) = Return r)
  \/ (exists resp detail,
        goes_live env req = true
        /\ live_reply env w req = Responded resp
        /\ status_code resp <> 200
        /\ fst (post_api_generate env w req) = HTTPException 500 detail).
Proof.
  intros V P E. unfold post_api_generate. rewrite V.
  pose proof (strip_encodable _ E) as E'.
  destruct (paths env w req) as [B | T L | T L R | resp T L R S | resp T L R S].
  - unfold has_prompt in P. unfold trimmed in B. congruence.
  - rewrite generate_image_demo by assumption.
    destruct (demo_mode_returns w req (trimmed req) (resolved env req) E')
      as (seed & _ & ->). left; eexists; reflexivity.
  - rewrite generate_image_live_raised by assumption.
    destruct (demo_mode_returns w req (trimmed req) (lit "demo") E')
      as (seed & _ & ->). left; eexists; reflexivity.
  - rewrite (generate_image_live_refused env w req resp) by assumption.
    right. exists resp. eexists. repeat split; auto.
  - rewrite (generate_image_live_ok env w req resp) by assumption.
    left; eexists; reflexivity.
Qed.

Lemma only_live_refusal_fails_witness :
  (exists r, fst (post_api_generate sk_env live_500 fox) = Return r)
  \/ (exists resp detail,
        goes_live sk_env fox = true
        /\ live_reply sk_env live_500 fox = Responded resp
        /\ status_code resp <> 200
        /\ fst (post_api_generate sk_env live_500 fox)
           = HTTPException 500 detail).
Proof.
  exact (only_live_refusal_fails sk_env live_500 fox eq_refl eq_refl eq_refl).
Defined.

(** ** More on trimming and lower-casing *)

Section Trimming.

Lemma lstrip_hd (s : str) (c : Z) (t : str) :
  lstrip s = c :: t -> isspace c = false.
Proof.
  induction s as [|a s IH]; simpl; [discriminate|].
  destruct (isspace a) eqn:E; [exact IH|]. intros [= <- _]. exact E.
Qed.

Lemma lstrip_app_nonspace (l : str) (c : Z) (t : str) :
  isspace c = false -> lstrip (l ++ c :: t) = lstrip l ++ c :: t.
Proof.
  intros E. induction l as [|a l IH]; simpl; [rewrite E; reflexivity|].
  destruct (isspace a); [exact IH | reflexivity].
Qed.

Lemma lstrip_app_space (pre s : str) :
  forallb isspace pre = true -> lstrip (pre ++ s) = lstrip s.
Proof.
  induction pre as [|a pre IH]; simpl; [reflexivity|].
  intros [-> H]%andb_true_iff. auto.
Qed.

Lemma lstrip_app_kept (s x : str) :
  lstrip s <> [] -> lstrip (s ++ x) = lstrip s ++ x.
Proof.
  induction s as [|a s IH]; simpl; [congruence|].
  destruct (isspace a); [exact IH | reflexivity].
Qed.

Lemma rstrip_app_space (s post : str) :
  forallb isspace post = true -> rstrip (s ++ post) = rstrip s.
Proof.
  intros H. unfold rstrip. rewrite rev_app_distr, lstrip_app_space; [reflexivity|].
  rewrite forallb_rev. exact H.
Qed.

(** Whitespace around a text does not change what it trims to. *)
Lemma strip_padded (pre s post : str) :
  forallb isspace pre = true -> forallb isspace post = true ->
  strip (pre ++ s ++ post) = strip s.
Proof.
  intros Hpre Hpost. unfold strip. rewrite lstrip_app_space by exact Hpre.
  destruct (lstrip s) as [|c t] eqn:E.
  - apply lstrip_nil in E.
    assert (A : forallb isspace (s ++ post) = true)
      by (rewrite forallb_app, E, Hpost; reflexivity).
    apply lstrip_nil in A. rewrite A. reflexivity.
  - rewrite lstrip_app_kept by congruence. rewrite E.
    apply rstrip_app_space, Hpost.
Qed.

(** What [strip] returns has no whitespace at either end. *)
Lemma strip_is_trimmed (s : str) : strip s <> [] -> is_trimmed (strip s).
Proof.
  unfold strip, rstrip. destruct (lstrip s) as [|c t] eqn:E; [simpl; congruence|].
  pose proof (lstrip_hd _ _ _ E) as Hc. intros _.
  cbn [rev]. rewrite lstrip_app_nonspace by exact Hc.
  destruct (lstrip (rev t)) as [|x u] eqn:U.
  - simpl. repeat split; [discriminate | exact Hc | exact Hc].
  - pose proof (lstrip_hd _ _ _ U) as Hx.
    rewrite rev_app_distr. cbn [rev app].
    repeat split; [discriminate | exact Hc |].
    change (c :: (rev u ++ [x])) with ((c :: rev u) ++ [x]).
    rewrite last_last. exact Hx.
Qed.

Lemma lower_from_truthy (before s : str) :
  truthy (lower_from before s) = truthy s.
Proof.
  destruct s as [|c rest]; [reflexivity|]. cbn [lower_from truthy].
  destruct (c =? 931); [reflexivity|]. unfold lower_full.
  destruct (c =? 304); reflexivity.
Qed.

Lemma truthy_lower (s : str) : truthy (lower s) = truthy s.
Proof. apply lower_from_truthy. Qed.

(** Hints that agree up to case resolve alike. *)
Lemma resolve_provider_case (h1 h2 : str) (key : option str) :
  lower h1 = lower h2 ->
  resolve_provider (Some h1) key = resolve_provider (Some h2) key.
Proof.
  intros H. unfold resolve_provider, or_else.
  rewrite <- (truthy_lower h1), <- (truthy_lower h2), H.
  destruct (truthy (lower h2)); [exact H | reflexivity].
Qed.

End Trimming.

(** ** The calls of the handler *)

(** X5: a call with a prompt first attempts to persist the record, then
    makes at most one POST to the live backend and at most one GET to the
    stock-image service, in this order; the database update is attempted
    only after a live answer, and never together with a GET. *)
Theorem calls_are_sequential
    (env : environ) (w : World) (req : GenerateRequest.t) :
  has_prompt req ->
  exists tail, snd (generate_image env w req) = saved env req :: tail
    /\ (tail = []
        \/ tail = [live_post env req]
        \/ tail = [live_post env req; UpdateOne (lit "imagegeneration")]
        \/ exists seed, demo_seed (trimmed req) = inr seed
             /\ (tail = [Get (seeded_url req seed) 30]
                 \/ tail = [live_post env req; Get (seeded_url req seed) 30])).
Proof. apply trace_shape. Qed.

Lemma calls_are_sequential_witness :
  exists tail, snd (generate_image sk_env picsum_only fox) = saved sk_env fox :: tail
    /\ (tail = []
        \/ tail = [live_post sk_env fox]
        \/ tail = [live_post sk_env fox; UpdateOne (lit "imagegeneration")]
        \/ exists seed, demo_seed (trimmed fox) = inr seed
             /\ (tail = [Get (seeded_url fox seed) 30]
                 \/ tail = [live_post sk_env fox; Get (seeded_url fox seed) 30])).
Proof. exact (calls_are_sequential sk_env picsum_only fox eq_refl). Defined.

(** X6: the handler posts only when a non-empty credential is set and the
    provider resolves to [stability]; the request goes to the Stability
    endpoint with the credential as bearer token, the form fields [prompt]
    (trimmed), [output_format=png] and [aspect_ratio=1:1], and a timeout of
    120 seconds. *)
Theorem post_requires_credential
    (env : environ) (w : World) (req : GenerateRequest.t)
    (url : str) (headers data : dict) (timeout : Z) :
  In (Post url headers data timeout) (snd (generate_image env w req)) ->
  exists key,
    getenv env (lit "STABILITY_API_KEY") = Some key /\ key <> []
    /\ resolved env req = lit "stability"
    /\ url = stability_url
    /\ headers = [(lit "Authorization", lit "Bearer " ++ key)]
    /\ data = [(lit "prompt", trimmed req); (lit "output_format", lit "png");
               (lit "aspect_ratio", lit "1:1")]
    /\ timeout = 120.
Proof.
  intros H.
  assert (L : goes_live env req = true).
  { destruct (goes_live env req) eqn:L; [reflexivity|]. exfalso.
    destruct (paths env w req) as [B | T _ | T L' | resp T L' | resp T L'];
      try congruence.
    - rewrite generate_image_blank in H by assumption. destruct H.
    - rewrite generate_image_demo in H by assumption. simpl in H.
      destruct H as [H | H]; [discriminate H|].
      apply demo_path_has_no_post in H as (seed & _ & H). discriminate H. }
  apply calls_of_the_handler in H. injection H as -> -> -> ->.
  apply goes_live_iff in L as [R C]. unfold credential in C.
  unfold stability_key.
  destruct (getenv env (lit "STABILITY_API_KEY")) as [key|] eqn:K;
    [|discriminate C].
  exists key. rewrite stability_data_closed.
  repeat split; auto. apply truthy_true, C.
Qed.

Lemma post_requires_credential_witness :
  exists key,
    getenv sk_env (lit "STABILITY_API_KEY") = Some key /\ key <> []
    /\ resolved sk_env wide_fox = lit "stability"
    /\ stability_url = stability_url
    /\ stability_headers (stability_key sk_env)
       = [(lit "Authorization", lit "Bearer " ++ key)]
    /\ stability_data (trimmed wide_fox) wide_fox
       = [(lit "prompt", trimmed wide_fox); (lit "output_format", lit "png");
          (lit "aspect_ratio", lit "1:1")]
    /\ 120 = 120.
Proof.
  apply (post_requires_credential sk_env online wide_fox).
  vm_compute. right. left. reflexivity.
Defined.

(** X7: a returned result has one of two shapes: a live result (mode
    [live], provider [stability], model [stable-image-core], no note) or a
    demo result (mode [demo], no model, the fixed note). *)
Theorem result_shape
    (env : environ) (w : World) (req : GenerateRequest.t)
    (r : GenerateResponse.t) :
  fst (generate_image env w req) = Return r ->
  (GenerateResponse.mode r = lit "live"
   /\ GenerateResponse.provider r = lit "stability"
   /\ GenerateResponse.model r = Some (lit "stable-image-core")
   /\ GenerateResponse.note r = None)
  \/ (GenerateResponse.mode r = lit "demo"
      /\ GenerateResponse.model r = None
      /\ GenerateResponse.note r = Some demo_note).
Proof.
  assert (D : forall label,
             fst (demo_mode w req (trimmed req) label) = Return r ->
             GenerateResponse.mode r = lit "demo"
             /\ GenerateResponse.model r = None
             /\ GenerateResponse.note r = Some demo_note).
  { intros label.
    destruct (demo_mode_cases w req (trimmed req) label)
      as [(e & _ & ->) | (seed & _ & ->)]; simpl; [discriminate|].
    intros [= <-]. repeat split. }
  destruct (paths env w req) as [B | T L | T L R | resp T L R S | resp T L R S].
  - rewrite generate_image_blank by assumption. discriminate.
  - rewrite generate_image_demo by assumption. simpl. eauto.
  - rewrite generate_image_live_raised by assumption. simpl. eauto.
  - rewrite (generate_image_live_refused env w req resp) by assumption.
    discriminate.
  - rewrite (generate_image_live_ok env w req resp) by assumption. simpl.
    intros [= <-]. left. repeat split.
Qed.

Lemma result_shape_witness :
  (GenerateResponse.mode (stub_result "dalle") = lit "live"
   /\ GenerateResponse.provider (stub_result "dalle") = lit "stability"
   /\ GenerateResponse.model (stub_result "dalle") = Some (lit "stable-image-core")
   /\ GenerateResponse.note (stub_result "dalle") = None)
  \/ (GenerateResponse.mode (stub_result "dalle") = lit "demo"
      /\ GenerateResponse.model (stub_result "dalle") = None
      /\ GenerateResponse.note (stub_result "dalle") = Some demo_note).
Proof.
  apply (result_shape no_env picsum_only dalle_fox (stub_result "dalle")).
  vm_compute. reflexivity.
Defined.

(** X8: when the live call is made and answered with status 200, the
    result is the live one, its image the base64 text of the response body,
    and the stock-image service is not contacted. *)
Theorem live_success
    (env : environ) (w : World) (req : GenerateRequest.t) (resp : Response) :
  has_prompt req ->
  goes_live env req = true ->
  live_reply env w req = Responded resp ->
  status_code resp = 200 ->
  fst (generate_image env w req)
  = Return (GenerateResponse.mk (b64 (content resp)) (lit "stability")
              (Some (lit "stable-image-core")) (lit "live") None)
  /\ forall url timeout, ~ In (Get url timeout) (snd (generate_image env w req)).
Proof.
  intros P L R S.
  rewrite (generate_image_live_ok env w req resp) by assumption.
  split; [reflexivity|]. intros url timeout. simpl.
  intros [H | [H | H]]; try discriminate H.
  destruct (db w && _); simpl in H; [destruct H as [H | []]; discriminate H|].
  destruct H.
Qed.

Lemma live_success_witness :
  fst (generate_image sk_env online fox)
  = Return (GenerateResponse.mk (b64 png_stub) (lit "stability")
              (Some (lit "stable-image-core")) (lit "live") None)
  /\ forall url timeout, ~ In (Get url timeout) (snd (generate_image sk_env online fox)).
Proof.
  exact (live_success sk_env online fox (mkResponse 200 png_stub [])
           eq_refl eq_refl eq_refl eq_refl).
Defined.

(** ** What does and does not reach the backends *)

(** X9: on the live path the requested width and height have no effect:
    the same request is posted, and a live result is the same result for
    any other dimensions. *)
Theorem live_result_ignores_size
    (env : environ) (w : World) (req : GenerateRequest.t)
    (width height : option Z) (r : GenerateResponse.t) :
  fst (generate_image env w req) = Return r ->
  GenerateResponse.mode r = lit "live" ->
  live_post env (with_size req width height) = live_post env req
  /\ fst (generate_image env w (with_size req width height)) = Return r.
Proof.
  intros H M.
  assert (Q : live_post env (with_size req width height) = live_post env req).
  { unfold live_post. rewrite !stability_data_closed. reflexivity. }
  split; [exact Q|].
  assert (D : forall label,
             fst (demo_mode w req (trimmed req) label) = Return r -> False).
  { intros label.
    destruct (demo_mode_cases w req (trimmed req) label)
      as [(e & _ & ->) | (seed & _ & ->)]; simpl; [discriminate|].
    intros [= <-]. discriminate M. }
  destruct (paths env w req) as [B | T L | T L R | resp T L R S | resp T L R S].
  - rewrite generate_image_blank in H by assumption. discriminate H.
  - rewrite generate_image_demo in H by assumption. destruct (D _ H).
  - rewrite generate_image_live_raised in H by assumption. destruct (D _ H).
  - rewrite (generate_image_live_refused env w req resp) in H by assumption.
    discriminate H.
  - rewrite (generate_image_live_ok env w req resp) in H by assumption.
    assert (R' : live_reply env w (with_size req width height)
                 = Responded resp).
    { unfold live_reply in *. rewrite stability_data_closed in *. exact R. }
    rewrite (generate_image_live_ok env w (with_size req width height) resp)
      by assumption.
    exact H.
Qed.

Lemma live_result_ignores_size_witness :
  live_post sk_env (with_size fox (Some 1024) (Some 128)) = live_post sk_env fox
  /\ fst (generate_image sk_env online (with_size fox (Some 1024) (Some 128)))
     = Return (GenerateResponse.mk (b64 png_stub) (lit "stability")
                 (Some (lit "stable-image-core")) (lit "live") None).
Proof.
  apply (live_result_ignores_size sk_env online fox (Some 1024) (Some 128)).
  - vm_compute. reflexivity.
  - reflexivity.
Defined.

(** X10: without a live attempt (no credential, or a provider that does
    not resolve to [stability]) the handler persists the record, fetches
    the seeded URL once and returns a demo result labelled with the resolved
    provider, whatever that label is: the hint [stability] without a
    credential gives provider [stability] with mode [demo]. *)
Theorem demo_path_result
    (env : environ) (w : World) (req : GenerateRequest.t) :
  has_prompt req ->
  encodable (GenerateRequest.prompt req) ->
  goes_live env req = false ->
  exists seed,
    demo_seed (trimmed req) = inr seed
    /\ generate_image env w req
       = (Return (GenerateResponse.mk (demo_image w req seed) (resolved env req)
                    None (lit "demo") (Some demo_note)),
          [saved env req; Get (seeded_url req seed) 30]).
Proof.
  intros P E L. rewrite generate_image_demo by assumption.
  destruct (demo_mode_returns w req (trimmed req) (resolved env req)
              (strip_encodable _ E)) as (seed & S & ->).
  exists seed. split; [exact S | reflexivity].
Qed.

Lemma demo_path_result_witness :
  exists seed,
    demo_seed (trimmed (request_for "Stability" "a red fox" 512 512)) = inr seed
    /\ generate_image no_env online (request_for "Stability" "a red fox" 512 512)
       = (Return (GenerateResponse.mk
                    (demo_image online (request_for "Stability" "a red fox" 512 512) seed)
                    (resolved no_env (request_for "Stability" "a red fox" 512 512))
                    None (lit "demo") (Some demo_note)),
          [saved no_env (request_for "Stability" "a red fox" 512 512);
           Get (seeded_url (request_for "Stability" "a red fox" 512 512) seed) 30]).
Proof.
  exact (demo_path_result no_env online
           (request_for "Stability" "a red fox" 512 512)
           eq_refl eq_refl eq_refl).
Defined.

(** X11: whitespace before and after the prompt changes nothing in what
    the handler does: same outcome, same record, same calls. *)
Theorem surrounding_whitespace_is_ignored
    (env : environ) (w : World) (req : GenerateRequest.t) (pre post : str) :
  forallb isspace pre = true ->
  forallb isspace post = true ->
  generate_image env w
    (with_prompt req (pre ++ GenerateRequest.prompt req ++ post))
  = generate_image env w req.
Proof.
  intros Hpre Hpost. apply generate_image_ext; try reflexivity.
  unfold trimmed. simpl. apply strip_padded; assumption.
Qed.

Lemma surrounding_whitespace_is_ignored_witness :
  generate_image sk_env picsum_only
    (with_prompt fox (lit "  " ++ GenerateRequest.prompt fox ++ [0x0A; 0x3000]))
  = generate_image sk_env picsum_only fox.
Proof.
  exact (surrounding_whitespace_is_ignored sk_env picsum_only fox
           (lit "  ") [0x0A; 0x3000] eq_refl eq_refl).
Defined.

(** X12: the prompt that is persisted and the prompt that is posted are the
    trimmed prompt: not empty, no whitespace at either end. *)
Theorem stored_and_posted_prompt_is_trimmed
    (env : environ) (w : World) (req : GenerateRequest.t) (e : Event) :
  In e (snd (generate_image env w req)) ->
  match e with
  | CreateDocument _ doc =>
      ImageGeneration.prompt doc = trimmed req /\ is_trimmed (trimmed req)
  | Post _ _ data _ =>
      dict_get (lit "prompt") data = Some (trimmed req)
      /\ is_trimmed (trimmed req)
  | _ => True
  end.
Proof.
  intros H.
  destruct (truthy (trimmed req)) eqn:T.
  - assert (Tr : is_trimmed (trimmed req))
      by (apply strip_is_trimmed, truthy_true, T).
    destruct (trace_shape env w req T) as (tail & Q & C).
    destruct e as [c doc | c | url headers data timeout | url timeout];
      try exact I.
    + rewrite Q in H. destruct H as [H | H].
      * injection H as <- <-. split; [reflexivity | exact Tr].
      * exfalso.
        destruct C as [-> | [-> | [-> | (seed & _ & [-> | ->])]]];
          simpl in H; intuition discriminate.
    + apply calls_of_the_handler in H. injection H as -> -> -> ->.
      rewrite stability_data_closed. split; [reflexivity | exact Tr].
  - rewrite generate_image_blank in H by exact T. destruct H.
Qed.

Lemma stored_and_posted_prompt_is_trimmed_witness :
  ImageGeneration.prompt (base_doc sk_env padded_fox) = trimmed padded_fox
  /\ is_trimmed (trimmed padded_fox).
Proof.
  apply (stored_and_posted_prompt_is_trimmed sk_env online padded_fox
           (saved sk_env padded_fox)).
  vm_compute. left. reflexivity.
Defined.

(** X13: the provider hint is read without regard to case: two hints that
    are equal in lower case give the same outcome and the same calls. *)
Theorem hint_case_is_ignored
    (env : environ) (w : World) (req : GenerateRequest.t) (h1 h2 : str) :
  lower h1 = lower h2 ->
  generate_image env w (with_provider req (Some h1))
  = generate_image env w (with_provider req (Some h2)).
Proof.
  intros H. apply generate_image_ext; try reflexivity.
  unfold resolved. simpl. apply resolve_provider_case, H.
Qed.

Lemma hint_case_is_ignored_witness :
  generate_image sk_env online (with_provider fox (Some (0xC9 :: lit "COLE")))
  = generate_image sk_env online (with_provider fox (Some (0xE9 :: lit "Cole"))).
Proof.
  exact (hint_case_is_ignored sk_env online fox (0xC9 :: lit "COLE")
           (0xE9 :: lit "Cole") eq_refl).
Defined.

(** X14: every URL fetched from the stock-image service is the seeded URL
    of the request, with a seed between 0 and 99,999,999 and a timeout of 30
    seconds. *)
Theorem fetched_url_has_bounded_seed
    (env : environ) (w : World) (req : GenerateRequest.t)
    (url : str) (timeout : Z) :
  In (Get url timeout) (snd (generate_image env w req)) ->
  exists seed,
    0 <= seed < 10 ^ 8
    /\ url = lit "https://picsum.photos/seed/" ++ str_of_int seed ++ lit "/"
               ++ fmt_opt_int (GenerateRequest.width req) ++ lit "/"
               ++ fmt_opt_int (GenerateRequest.height req)
    /\ timeout = 30.
Proof.
  intros H. apply calls_of_the_handler in H as (seed & E & -> & ->).
  exists seed. repeat split; try reflexivity;
    rewrite demo_seed_eq in E;
    destruct (encode_utf8 (trimmed req)); try discriminate E;
    injection E as <-; unfold seed_spec; apply Z.mod_pos_bound; lia.
Qed.

Lemma fetched_url_has_bounded_seed_witness :
  exists seed,
    0 <= seed < 10 ^ 8
    /\ demo_url 78648756 (Some 512) (Some 512)
       = lit "https://picsum.photos/seed/" ++ str_of_int seed ++ lit "/"
           ++ fmt_opt_int (GenerateRequest.width fox) ++ lit "/"
           ++ fmt_opt_int (GenerateRequest.height fox)
    /\ 30 = 30.
Proof.
  apply (fetched_url_has_bounded_seed no_env online fox).
  vm_compute. right. left. reflexivity.
Defined.



(** ** Base64 *)

Section Base64Facts.

Lemma list_ind3 (P : list Z -> Prop) :
  P [] -> (forall a, P [a]) -> (forall a b, P [a; b]) ->
  (forall a b c rest, P rest -> P (a :: b :: c :: rest)) ->
  forall l, P l.
Proof.
  intros H0 H1 H2 H3 l.
  assert (A : forall n l, (length l <= n)%nat -> P l).
  { induction n as [|n IH]; intros [|a [|b [|c rest]]] L; auto;
      simpl in L; try lia.
    apply H3, IH. lia. }
  apply (A (length l)). lia.
Qed.

Lemma below_cases (P : Z -> bool) (n : nat) :
  forallb P (map Z.of_nat (seq 0 n)) = true ->
  forall x, 0 <= x < Z.of_nat n -> P x = true.
Proof.
  intros H x Hx. rewrite forallb_forall in H. apply H.
  apply in_map_iff. exists (Z.to_nat x). split; [lia|].
  apply in_seq. lia.
Qed.

Lemma below_pairs (P : Z -> Z -> bool) (n : nat) :
  forallb (fun a => forallb (P a) (map Z.of_nat (seq 0 n)))
    (map Z.of_nat (seq 0 n)) = true ->
  forall a b, 0 <= a < Z.of_nat n -> 0 <= b < Z.of_nat n -> P a b = true.
Proof.
  intros H a b Ha Hb.
  apply (below_cases (P a) n); [|exact Hb].
  apply (below_cases (fun a => forallb (P a) (map Z.of_nat (seq 0 n))) n H a Ha).
Qed.

(** A 6-bit value is read back from its character, which is not the pad. *)
Lemma value_alphabet (v : Z) :
  0 <= v < 64 ->
  Base64Decode.value (Base64.alphabet v) = Some v
  /\ Base64Decode.is_pad (Base64.alphabet v) = false.
Proof.
  intros H.
  pose proof (below_cases
    (fun v => match Base64Decode.value (Base64.alphabet v) with
              | Some u => (u =? v)
                          && negb (Base64Decode.is_pad (Base64.alphabet v))
              | None => false
              end) 64 ltac:(vm_compute; reflexivity) v H) as C.
  cbv beta in C.
  destruct (Base64Decode.value (Base64.alphabet v)) as [u|]; [|discriminate C].
  apply andb_true_iff in C as [->%Z.eqb_eq C]. apply negb_true_iff in C. auto.
Qed.

(** The first two characters carry the first octet. *)
Lemma first_octet (a b : Z) :
  octet a -> octet b ->
  let s1 := Z.shiftr a 2 in
  let s2 := Z.lor (Z.shiftl (Z.land a 3) 4) (Z.shiftr b 4) in
  (0 <= s1 < 64 /\ 0 <= s2 < 64)
  /\ Z.lor (Z.shiftl s1 2) (Z.shiftr s2 4) = a
  /\ Z.land s2 15 = Z.shiftr b 4.
Proof.
  intros Ha Hb.
  pose proof (below_pairs
    (fun a b =>
       let s1 := Z.shiftr a 2 in
       let s2 := Z.lor (Z.shiftl (Z.land a 3) 4) (Z.shiftr b 4) in
       (0 <=? s1) && (s1 <? 64) && (0 <=? s2) && (s2 <? 64)
       && (Z.lor (Z.shiftl s1 2) (Z.shiftr s2 4) =? a)
       && (Z.land s2 15 =? Z.shiftr b 4))
    256 ltac:(vm_compute; reflexivity) a b Ha Hb) as C.
  cbv beta zeta in C |- *.
  repeat (apply andb_true_iff in C as [C ?]).
  repeat split; lia.
Qed.

(** The third character carries the low half of the second octet and the
    top of the third; the fourth the rest of the third. *)
Lemma later_octets (b c : Z) :
  octet b -> octet c ->
  let s3 := Z.lor (Z.shiftl (Z.land b 15) 2) (Z.shiftr c 6) in
  let s4 := Z.land c 63 in
  (0 <= s3 < 64 /\ 0 <= s4 < 64)
  /\ Z.lor (Z.shiftl (Z.shiftr b 4) 4) (Z.shiftr s3 2) = b
  /\ Z.lor (Z.shiftl (Z.land s3 3) 6) s4 = c.
Proof.
  intros Hb Hc.
  pose proof (below_pairs
    (fun b c =>
       let s3 := Z.lor (Z.shiftl (Z.land b 15) 2) (Z.shiftr c 6) in
       let s4 := Z.land c 63 in
       (0 <=? s3) && (s3 <? 64) && (0 <=? s4) && (s4 <? 64)
       && (Z.lor (Z.shiftl (Z.shiftr b 4) 4) (Z.shiftr s3 2) =? b)
       && (Z.lor (Z.shiftl (Z.land s3 3) 6) s4 =? c))
    256 ltac:(vm_compute; reflexivity) b c Hb Hc) as C.
  cbv beta zeta in C |- *.
  repeat (apply andb_true_iff in C as [C ?]).
  repeat split; lia.
Qed.

End Base64Facts.

Section Base64RoundTrip.

Ltac sextet H :=
  let V := fresh "V" in let N := fresh "N" in
  destruct (value_alphabet _ H) as [V N]; rewrite ?V, ?N; clear V N.

(** Decoding what was encoded gives the octets back. *)
Lemma b64decode_b64encode (bs : bytes) :
  Forall octet bs ->
  Base64Decode.b64decode (Base64.b64encode bs) = Some bs.
Proof.
  induction bs as [| a | a b | a b c rest IH] using list_ind3; intros H.
  - reflexivity.
  - inversion H as [|? ? Ha _]; subst.
    destruct (first_octet a 0 Ha ltac:(unfold octet; lia))
      as ((R1 & R2) & E1 & _).
    change (Z.shiftr 0 4) with 0 in *. rewrite Z.lor_0_r in *.
    cbn [Base64.b64encode Base64Decode.b64decode].
    sextet R1. sextet R2. rewrite E1. reflexivity.
  - inversion H as [|? ? Ha H']; subst. inversion H' as [|? ? Hb _]; subst.
    destruct (first_octet a b Ha Hb) as ((R1 & R2) & E1 & E2).
    destruct (later_octets b 0 Hb ltac:(unfold octet; lia))
      as ((R3 & _) & E3 & _).
    change (Z.shiftr 0 6) with 0 in *. rewrite Z.lor_0_r in *.
    cbn [Base64.b64encode Base64Decode.b64decode].
    sextet R1. sextet R2. sextet R3.
    cbn [andb]. rewrite E1, E2, E3. reflexivity.
  - inversion H as [|? ? Ha H']; subst. inversion H' as [|? ? Hb H'']; subst.
    inversion H'' as [|? ? Hc Hrest]; subst.
    destruct (first_octet a b Ha Hb) as ((R1 & R2) & E1 & E2).
    destruct (later_octets b c Hb Hc) as ((R3 & R4) & E3 & E4).
    cbn [Base64.b64encode Base64Decode.b64decode].
    sextet R1. sextet R2. sextet R3. sextet R4.
    cbn [andb]. rewrite (IH Hrest), E1, E2, E3, E4. reflexivity.
Qed.

Lemma b64encode_nil (bs : bytes) : Base64.b64encode bs = [] -> bs = [].
Proof. destruct bs as [|a [|b [|c rest]]]; simpl; [reflexivity | discriminate ..]. Qed.

End Base64RoundTrip.

(** X16: base64 encoding loses nothing: two octet strings with the same
    encoding are the same, so an [image_b64] stands for exactly one image;
    the strict decoder reads every encoding back. *)
Theorem b64encode_injective (xs ys : bytes) :
  Forall octet xs -> Forall octet ys ->
  Base64.b64encode xs = Base64.b64encode ys ->
  xs = ys
  /\ Base64Decode.b64decode (Base64.b64encode xs) = Some xs.
Proof.
  intros Hx Hy E. split; [|apply b64decode_b64encode, Hx].
  pose proof (b64decode_b64encode xs Hx) as Dx.
  pose proof (b64decode_b64encode ys Hy) as Dy.
  rewrite E in Dx. congruence.
Qed.

Lemma b64encode_injective_witness :
  png_stub = png_stub
  /\ Base64Decode.b64decode (Base64.b64encode png_stub) = Some png_stub.
Proof.
  apply (b64encode_injective png_stub png_stub).
  - unfold png_stub, octet. repeat constructor; lia.
  - unfold png_stub, octet. repeat constructor; lia.
  - reflexivity.
Defined.

(** X17: the encoding of [n] octets has [4 * ceil(n / 3)] characters, all
    of them letters, digits, [+], [/] or [=]: plain ASCII, so that decoding
    it as UTF-8 cannot fail. *)
Theorem b64encode_length_and_charset (bs : bytes) :
  Forall octet bs ->
  length (Base64.b64encode bs) = (4 * ((length bs + 2) / 3))%nat
  /\ Forall (fun c => 65 <= c <= 90 \/ 97 <= c <= 122 \/ 48 <= c <= 57
                      \/ c = 43 \/ c = 47 \/ c = 61)
       (Base64.b64encode bs).
Proof.
  assert (A : forall v, 0 <= v < 64 ->
             let c := Base64.alphabet v in
             65 <= c <= 90 \/ 97 <= c <= 122 \/ 48 <= c <= 57
             \/ c = 43 \/ c = 47 \/ c = 61).
  { intros v Hv.
    pose proof (below_cases
      (fun v => let c := Base64.alphabet v in
                ((65 <=? c) && (c <=? 90)) || ((97 <=? c) && (c <=? 122))
                || ((48 <=? c) && (c <=? 57)) || (c =? 43) || (c =? 47))
      64 ltac:(vm_compute; reflexivity) v Hv) as C.
    cbv beta zeta in C |- *. lia. }
  induction bs as [| a | a b | a b c rest IH] using list_ind3; intros H.
  - split; [reflexivity | constructor].
  - inversion H as [|? ? Ha _]; subst.
    destruct (first_octet a 0 Ha ltac:(unfold octet; lia)) as ((R1 & R2) & _).
    change (Z.shiftr 0 4) with 0 in *. rewrite Z.lor_0_r in *.
    split; [reflexivity|]. cbn [Base64.b64encode]. unfold Base64.pad_char.
    repeat (apply Forall_cons; [first [apply A; assumption | lia] |]).
    apply Forall_nil.
  - inversion H as [|? ? Ha H']; subst. inversion H' as [|? ? Hb _]; subst.
    destruct (first_octet a b Ha Hb) as ((R1 & R2) & _).
    destruct (later_octets b 0 Hb ltac:(unfold octet; lia)) as ((R3 & _) & _).
    change (Z.shiftr 0 6) with 0 in *. rewrite Z.lor_0_r in *.
    split; [reflexivity|]. cbn [Base64.b64encode]. unfold Base64.pad_char.
    repeat (apply Forall_cons; [first [apply A; assumption | lia] |]).
    apply Forall_nil.
  - inversion H as [|? ? Ha H']; subst. inversion H' as [|? ? Hb H'']; subst.
    inversion H'' as [|? ? Hc Hrest]; subst.
    destruct (first_octet a b Ha Hb) as ((R1 & R2) & _).
    destruct (later_octets b c Hb Hc) as ((R3 & R4) & _).
    destruct (IH Hrest) as [L F].
    cbn [Base64.b64encode]. split.
    + cbn [length]. rewrite L.
      replace (S (S (S (length rest))) + 2)%nat with (length rest + 2 + 1 * 3)%nat by lia.
      rewrite Nat.div_add by lia. lia.
    + repeat (apply Forall_cons; [apply A; assumption |]). exact F.
Qed.

Lemma b64encode_length_and_charset_witness :
  length (Base64.b64encode png_stub) = (4 * ((length png_stub + 2) / 3))%nat
  /\ Forall (fun c => 65 <= c <= 90 \/ 97 <= c <= 122 \/ 48 <= c <= 57
                      \/ c = 43 \/ c = 47 \/ c = 61)
       (Base64.b64encode png_stub).
Proof.
  apply (b64encode_length_and_charset png_stub).
  unfold png_stub, octet. repeat constructor; lia.
Defined.

(** X18: a returned image is empty only when a backend answered without
    error and with an empty body; the embedded fallback never yields an
    empty image. *)
Theorem empty_image_only_from_empty_body
    (env : environ) (w : World) (req : GenerateRequest.t)
    (r : GenerateResponse.t) :
  fst (generate_image env w req) = Return r ->
  GenerateResponse.image_b64 r = [] ->
  exists resp,
    content resp = []
    /\ ((live_reply env w req = Responded resp /\ status_code resp = 200)
        \/ exists seed,
             demo_seed (trimmed req) = inr seed
             /\ requests_get w (seeded_url req seed) 30 = Responded resp
             /\ raises_for_status resp = false).
Proof.
  intros H Z0.
  assert (D : forall label,
             fst (demo_mode w req (trimmed req) label) = Return r ->
             exists resp, content resp = []
               /\ exists seed,
                    demo_seed (trimmed req) = inr seed
                    /\ requests_get w (seeded_url req seed) 30 = Responded resp
                    /\ raises_for_status resp = false).
  { intros label.
    destruct (demo_mode_cases w req (trimmed req) label)
      as [(e & _ & ->) | (seed & S & ->)]; simpl; [discriminate|].
    intros [= <-]. simpl in Z0. unfold demo_image in Z0.
    fold (seeded_url req seed) in Z0.
    destruct (requests_get w (seeded_url req seed) 30) as [resp|] eqn:G;
      [|destruct (b64_fallback_not_empty Z0)].
    destruct (raises_for_status resp) eqn:F;
      [destruct (b64_fallback_not_empty Z0)|].
    exists resp. split; [apply b64encode_nil, Z0|]. eauto. }
  destruct (paths env w req) as [B | T L | T L R | resp T L R S | resp T L R S].
  - rewrite generate_image_blank in H by assumption. discriminate H.
  - rewrite generate_image_demo in H by assumption.
    destruct (D _ H) as (resp & C & X). eauto.
  - rewrite generate_image_live_raised in H by assumption.
    destruct (D _ H) as (resp & C & X). eauto.
  - rewrite (generate_image_live_refused env w req resp) in H by assumption.
    discriminate H.
  - rewrite (generate_image_live_ok env w req resp) in H by assumption.
    injection H as <-. simpl in Z0. exists resp.
    split; [apply b64encode_nil, Z0 | auto].
Qed.

Lemma empty_image_only_from_empty_body_witness :
  exists resp,
    content resp = []
    /\ ((live_reply no_env (world RequestException (status_reply 204 "")) fox
         = Responded resp /\ status_code resp = 200)
        \/ exists seed,
             demo_seed (trimmed fox) = inr seed
             /\ requests_get (world RequestException (status_reply 204 ""))
                  (seeded_url fox seed) 30 = Responded resp
             /\ raises_for_status resp = false).
Proof.
  apply (empty_image_only_from_empty_body no_env
           (world RequestException (status_reply 204 "")) fox
           (GenerateResponse.mk [] (lit "demo") None (lit "demo") (Some demo_note))).
  - vm_compute. reflexivity.
  - reflexivity.
Defined.

(** ** The diagnostics endpoint *)

(** X19: in the diagnostics report the fields [database_url] and
    [database_name] tell only whether the variables [DATABASE_URL] and
    [DATABASE_NAME] are set to something non-empty; what the probe of the
    database wrote there before (the text "Configured", the name of the
    database) is overwritten and never reaches the caller. The field
    [backend] is always the same. *)
Theorem diagnostics_report_environment_only
    (env : environ) (module : DatabaseModule) :
  Diagnostics.backend (test_database env module) = check_mark ++ lit " Running"
  /\ Diagnostics.database_url (test_database env module)
     = Some (if truthy_opt (getenv env (lit "DATABASE_URL"))
             then check_mark ++ lit " Set" else cross_mark ++ lit " Not Set")
  /\ Diagnostics.database_name (test_database env module)
     = Some (if truthy_opt (getenv env (lit "DATABASE_NAME"))
             then check_mark ++ lit " Set" else cross_mark ++ lit " Not Set").
Proof.
  unfold test_database.
  destruct module as [| e | [handle|]];
    [| | destruct (list_collection_names handle) |]; repeat split.
Qed.

(** X20: the report is in one of two states. Under the status [Connected]
    at most ten collections are listed, and any are listed only with the
    message that the database is connected and working; under the status
    [Not Connected] no collection is listed and the message is another one. *)
Theorem diagnostics_consistent (env : environ) (module : DatabaseModule) :
  (Diagnostics.connection_status (test_database env module) = lit "Connected"
   /\ (length (Diagnostics.collections (test_database env module)) <= 10)%nat
   /\ (Diagnostics.collections (test_database env module) = []
       \/ Diagnostics.database (test_database env module)
          = check_mark ++ lit " Connected & Working"))
  \/ (Diagnostics.connection_status (test_database env module)
      = lit "Not Connected"
      /\ Diagnostics.collections (test_database env module) = []
      /\ str_eqb (Diagnostics.database (test_database env module))
           (check_mark ++ lit " Connected & Working") = false).
Proof.
  unfold test_database.
  destruct module as [| e | [handle|]];
    [| | destruct (list_collection_names handle) as [e | names] |];
    cbn -[lit firstn];
    [right | right | left | left | right]; repeat split; auto;
    first [apply firstn_le_length | apply Nat.le_0_l].
Qed.

(** X21: the [database] message of the report has at most 75 characters,
    however long the text of the exception it quotes: the quote is cut at
    50 characters. *)
Theorem diagnostics_message_bounded (env : environ) (module : DatabaseModule) :
  (length (Diagnostics.database (test_database env module)) <= 75)%nat.
Proof.
  unfold test_database.
  destruct module as [| e | [handle|]];
    [| | destruct (list_collection_names handle) as [e | names] |];
    cbn -[lit firstn]; unfold take; rewrite ?length_app;
    try pose proof (firstn_le_length 50 e);
    cbn [length lit list_ascii_of_string map]; lia.
Qed.
